(** * Xia fatigue dynamics (bioptim/dynamics/fatigue/xia_fatigue.py)

    A shallow embedding of the three-compartment fatigue model [XiaFatigue]
    and of its two-sided torque composite [XiaTauFatigue].

    Numbers are exact rationals ([Q]); the symbolic [if_else], [lt] and [gt]
    of the source become a conditional on decidable comparisons.  Column
    vectors are lists, the named channel collections of the engine are
    finite maps keyed by strings, and the combined derivative vector that
    the source updates in place is a store threaded through a small
    state-and-exception monad. *)

From Stdlib Require Import QArith Qminmax Qabs Lqa Lia.
From stdpp Require Import gmap strings list.

Local Open Scope Q_scope.

(** ** Exceptions and fallible computations *)

Inductive exn : Set :=
  | NotImplementedError
  | TypeError
  | ValueError
  | KeyError
  | IndexError.

Inductive result (A : Type) : Type :=
  | Ok (a : A)
  | Raise (e : exn).
Arguments Ok {A} a.
Arguments Raise {A} e.

#[global] Instance result_ret : MRet result := fun _ a => Ok a.
#[global] Instance result_bind : MBind result := fun _ _ f r =>
  match r with
  | Ok a => f a
  | Raise e => Raise e
  end.

(** ** Comparisons of the symbolic layer, on exact rationals *)

Definition lt (x y : Q) : bool := negb (Qle_bool y x).
Definition gt (x y : Q) : bool := lt y x.
Definition if_else {A : Type} (c : bool) (a b : A) : A := if c then a else b.

(** [vertcat] of scalars is the column with these rows. *)
Definition vertcat (rows : list Q) : list Q := rows.

(** Modelled from the spec: the enumeration [VariableType] of
    [misc/enums.py], whose two members tell state variables from control
    variables. *)
Inductive VariableType : Set := STATES | CONTROLS.

#[global] Instance VariableType_eq_dec : EqDecision VariableType.
Proof. solve_decision. Defined.

(** ** The engine's containers *)

Module OptimizationVariable.
(** Modelled from the spec: a named channel of the outer engine, which
    knows the rows ([index]) it occupies in the full state or control
    vector. *)
Record t : Type := Build { index : list nat }.
End OptimizationVariable.

Module NonLinearProgram.
(** Modelled from the spec: the context object [nlp] of the outer engine,
    which exposes the state and the control channel collections, keyed by
    string names. *)
Record t : Type := Build {
  states : gmap string OptimizationVariable.t;
  controls : gmap string OptimizationVariable.t
}.
End NonLinearProgram.

(** Modelled from the spec: membership in a channel collection,
    [name in collection]. *)
Definition contains (name : string) (collection : gmap string OptimizationVariable.t) : bool :=
  bool_decide (is_Some (collection !! name)).

(** Modelled from the spec: lookup in a channel collection,
    [collection[name]]; a name that is not there is a key error. *)
Definition getitem (collection : gmap string OptimizationVariable.t) (name : string)
  : result OptimizationVariable.t :=
  match collection !! name with
  | Some var => Ok var
  | None => Raise KeyError
  end.

(** [v[i, :]], the row [i] of a column. *)
Definition row {A : Type} (v : list A) (i : nat) : result A :=
  match v !! i with
  | Some x => Ok x
  | None => Raise IndexError
  end.

Module DynamicsFunctions.

(** Modelled from the spec: the accessor [DynamicsFunctions.get] of
    [dynamics_functions.py], which looks a channel up inside the full
    state or control container: the rows of [cx] listed by the channel's
    [index]. *)
Definition get (var : OptimizationVariable.t) (cx : list Q) : result (list Q) :=
  mapM (row cx) (OptimizationVariable.index var).

End DynamicsFunctions.

(** ** Computations that update the combined derivative vector in place *)

Definition Dx (A : Type) : Type := list Q -> result A * list Q.

#[global] Instance Dx_ret : MRet Dx := fun _ a dxdt => (Ok a, dxdt).
#[global] Instance Dx_bind : MBind Dx := fun _ _ f m dxdt =>
  match m dxdt with
  | (Ok a, dxdt') => f a dxdt'
  | (Raise e, dxdt') => (Raise e, dxdt')
  end.

(** A computation that does not touch the vector. *)
Definition lift {A : Type} (r : result A) : Dx A := fun dxdt => (r, dxdt).

(** [dxdt[r, :] = v]: a write into an existing row; the vector is never
    resized, a row that does not exist is an error. *)
Definition setitem (r : nat) (v : Q) : Dx unit := fun dxdt =>
  if decide (r < length dxdt)%nat then (Ok tt, <[r:=v]> dxdt)
  else (Raise IndexError, dxdt).

(** [return dxdt]: the object handed back is the updated vector itself. *)
Definition return_dxdt : Dx (list Q) := fun dxdt => (Ok dxdt, dxdt).

Definition enumerate {A : Type} (l : list A) : list (nat * A) :=
  zip (seq 0 (length l)) l.

(** [for x in l: body(x)] *)
Fixpoint for_each {A : Type} (body : A -> Dx unit) (l : list A) : Dx unit :=
  match l with
  | [] => mret tt
  | x :: l' => body x ≫= fun _ => for_each body l'
  end.

(** ** The single-actuator model *)

Module MultiFatigueInterfaceMuscle.
Definition model_type : string := "muscles".
End MultiFatigueInterfaceMuscle.

Module XiaFatigue.

Record t : Type := __init__ {
  LD : Q;
  LR : Q;
  F : Q;
  R : Q;
  scale : Q
}.

Definition type : string := "muscles".

(** [suffix] has one required positional parameter.  [Some v] is the call
    [suffix(v)]; [None] is the call [suffix()], which Python rejects. *)
Definition suffix (variable_type : option VariableType) : result (list string) :=
  match variable_type with
  | None => Raise TypeError
  | Some v =>
      if decide (v = STATES) then Ok ["ma"; "mr"; "mf"]%string
      else Ok [""%string]
  end.

Definition color : list string := ["tab:green"; "tab:orange"; "tab:red"]%string.

Definition default_initial_guess (self : t) : list Q := [0; 1; 0].

Definition default_bounds (self : t) (variable_type : VariableType)
  : list Q * list Q :=
  ([0; 0; 0], [1; 1; 1]).

Definition dynamics_suffix : string := "ma".

(** The activation transfer rate [c] of [apply_dynamics]. *)
Definition transfer_rate (self : t) (target_load ma mr : Q) : Q :=
  if_else (lt ma target_load)
    (if_else (gt mr (target_load - ma))
       (LD self * (target_load - ma))
       (LD self * mr))
    (LR self * (target_load - ma)).

(** [apply_dynamics(self, target_load, *states)]; the unpacking
    [ma, mr, mf = states] needs exactly three values. *)
Definition apply_dynamics (self : t) (target_load : Q) (states : list Q)
  : result (list Q) :=
  match states with
  | [ma; mr; mf] =>
      let c := transfer_rate self target_load ma mr in
      let ma_dot := c - F self * ma in
      let mr_dot := - c + R self * mf in
      let mf_dot := F self * ma - R self * mf in
      Ok (vertcat [ma_dot; mr_dot; mf_dot])
  | _ => Raise ValueError
  end.

Definition _get_target_load (self : t) (nlp : NonLinearProgram.t)
    (controls : list Q) (index : nat) : result Q :=
  if negb (contains "muscles" (NonLinearProgram.controls nlp)) then
    Raise NotImplementedError
  else
    var ← getitem (NonLinearProgram.controls nlp) "muscles";
    col ← DynamicsFunctions.get var controls;
    row col index.

(** One element of the list comprehension that gathers the state triple. *)
Definition fatigue_of (nlp : NonLinearProgram.t) (index : nat)
    (states : list Q) (s : string) : result Q :=
  var ← getitem (NonLinearProgram.states nlp) ("muscles_" +:+ s);
  col ← DynamicsFunctions.get var states;
  row col index.

(** The body of the write-back loop, [dxdt[...index[index], :] = current_dxdt[i]]:
    the right-hand side is evaluated before the target. *)
Definition write_back (nlp : NonLinearProgram.t) (index : nat)
    (current_dxdt : list Q) (item : nat * string) : Dx unit :=
  v ← lift (row current_dxdt item.1);
  var ← lift (getitem (NonLinearProgram.states nlp) ("muscles_" +:+ item.2));
  r ← lift (row (OptimizationVariable.index var) index);
  setitem r v.

Definition dynamics (self : t) (nlp : NonLinearProgram.t) (index : nat)
    (states controls : list Q) : Dx (list Q) :=
  target_load ← lift (_get_target_load self nlp controls index);
  fatigue ← lift (suffix (Some STATES) ≫= mapM (fatigue_of nlp index states));
  current_dxdt ← lift (apply_dynamics self target_load fatigue);
  labels ← lift (suffix None);
  _ ← for_each (write_back nlp index current_dxdt) (enumerate labels);
  return_dxdt.

End XiaFatigue.

(** ** The two-sided composite *)

Module XiaTauFatigue.

(** Modelled from the spec: the attributes that the base class
    [MultiFatigueModel] of [fatigue_dynamics.py] keeps, an ordered mapping
    from sub-model key to sub-model and the [state_only] flag.  The
    mapping is kept in insertion order, as a Python dict does. *)
Record t : Type := Build {
  models : list (string * XiaFatigue.t);
  state_only : bool
}.

Definition suffix : list string := ["minus"; "plus"]%string.

(** [__init__(self, minus, plus, state_only)] hands [[minus, plus]] and
    the flag to the base class.  Modelled from the spec: the base-class
    constructor stores the sub-models, in order, under the keys of
    [suffix()]. *)
Definition __init__ (minus plus : XiaFatigue.t) (state_only : bool) : t :=
  {| models := zip suffix [minus; plus]; state_only := state_only |}.

Definition model_type : string := "tau".

Definition color : list string := ["tab:orange"; "tab:green"]%string.

Definition plot_factor : Z * Z := ((-1)%Z, 1%Z).

Definition dynamics_suffix : string := "ma".

(** [self.models[key]] *)
Fixpoint lookup_key (key : string) (ms : list (string * XiaFatigue.t))
  : result XiaFatigue.t :=
  match ms with
  | [] => Raise KeyError
  | (k, m) :: ms' => if decide (k = key) then Ok m else lookup_key key ms'
  end.

(** Modelled from the spec: [_convert_to_models_key] of the base class,
    the positional lookup of a key; a position outside the configured
    key range is the fatal index error. *)
Definition _convert_to_models_key (self : t) (index : nat) : result string :=
  row (models self).*1 index.

(** The quotient is the one of [Q], where [x / 0] is [0]; what is proved
    about it below assumes a non-zero scale where that matters. *)
Definition _get_target_load (self : t) (var : XiaFatigue.t) (suffix : string)
    (nlp : NonLinearProgram.t) (controls : list Q) (index : nat) : result Q :=
  if negb (contains "tau" (NonLinearProgram.controls nlp)) then
    Raise NotImplementedError
  else
    channel ← getitem (NonLinearProgram.controls nlp) ("tau_" +:+ suffix);
    col ← DynamicsFunctions.get channel controls;
    raw ← row col index;
    mret (raw / XiaFatigue.scale var).

Definition fatigue_of (suffix : string) (nlp : NonLinearProgram.t)
    (index : nat) (states : list Q) (dyn_suffix : string) : result Q :=
  var ← getitem (NonLinearProgram.states nlp)
          ("tau_" +:+ suffix +:+ "_" +:+ dyn_suffix);
  col ← DynamicsFunctions.get var states;
  row col index.

Definition write_back (suffix : string) (nlp : NonLinearProgram.t)
    (index : nat) (current_dxdt : list Q) (item : nat * string) : Dx unit :=
  v ← lift (row current_dxdt item.1);
  var ← lift (getitem (NonLinearProgram.states nlp)
                ("tau_" +:+ suffix +:+ "_" +:+ item.2));
  r ← lift (row (OptimizationVariable.index var) index);
  setitem r v.

Definition _dynamics_per_suffix (self : t) (suffix : string)
    (nlp : NonLinearProgram.t) (index : nat) (states controls : list Q)
  : Dx (list Q) :=
  var ← lift (lookup_key suffix (models self));
  target_load ← lift (_get_target_load self var suffix nlp controls index);
  fatigue ← lift (XiaFatigue.suffix (Some STATES)
                    ≫= mapM (fatigue_of suffix nlp index states));
  current_dxdt ← lift (XiaFatigue.apply_dynamics var target_load fatigue);
  labels ← lift (XiaFatigue.suffix (Some STATES));
  _ ← for_each (write_back suffix nlp index current_dxdt) (enumerate labels);
  return_dxdt.

Definition default_bounds (self : t) (index : nat) (variable_type : VariableType)
  : result (list Q * list Q) :=
  key ← _convert_to_models_key self index;
  if decide (variable_type = STATES) then
    m ← lookup_key key (models self);
    mret (XiaFatigue.default_bounds m variable_type)
  else
    m ← lookup_key key (models self);
    let scale := XiaFatigue.scale m in
    mret ([if decide (index = 0%nat) then scale else 0],
          [if decide (index = 1%nat) then scale else 0]).

Definition default_initial_guess (self : t) (index : nat)
    (variable_type : VariableType) : result (list Q) :=
  key ← _convert_to_models_key self index;
  m ← lookup_key key (models self);
  mret (XiaFatigue.default_initial_guess m).

End XiaTauFatigue.

(** A Python dict holds each key once. *)
Definition unique_keys (self : XiaTauFatigue.t) : bool :=
  bool_decide (NoDup (XiaTauFatigue.models self).*1).

(** A computation that does not end in the unsupported-control error. *)
Definition supported {A : Type} (r : result A) : Prop :=
  r <> Raise NotImplementedError.

Definition supportedD {A : Type} (m : Dx A) : Prop :=
  forall dxdt : list Q, supported (m dxdt).1.

(** The rows of the derivative vector that belong to one side of a joint
    at one index: the rows of its [ma], [mr] and [mf] channels, where these
    resolve. *)
Definition tau_rows (suffix : string) (nlp : NonLinearProgram.t) (index : nat)
  : list nat :=
  omap (fun s : string =>
          NonLinearProgram.states nlp !! ("tau_" +:+ suffix +:+ "_" +:+ s)
            ≫= fun var => OptimizationVariable.index var !! index)
       ["ma"; "mr"; "mf"]%string.

(** A computation that keeps the length of the vector and changes no row
    outside [rows], whether it ends normally or in an exception. *)
Definition frames {A : Type} (rows : list nat) (m : Dx A) : Prop :=
  forall dxdt : list Q,
    length (m dxdt).2 = length dxdt
    /\ forall j : nat, j ∉ rows -> (m dxdt).2 !! j = dxdt !! j.

(** * Properties *)

(** ** Concrete models and containers used by the examples *)

Definition unit_model : XiaFatigue.t := XiaFatigue.__init__ 1 1 1 1 1.
Definition scaled_model : XiaFatigue.t := XiaFatigue.__init__ 1 1 1 1 2.
Definition minus_model : XiaFatigue.t := XiaFatigue.__init__ 10 10 5 10 (-2).
Definition plus_model : XiaFatigue.t := XiaFatigue.__init__ 10 10 5 10 2.

Definition channel (rows : list nat) : OptimizationVariable.t :=
  OptimizationVariable.Build rows.

(** One muscle whose three fatigue states occupy rows 0, 1, 2. *)
Definition muscle_nlp : NonLinearProgram.t :=
  NonLinearProgram.Build
    (<["muscles_ma" := channel [0%nat]]>
       (<["muscles_mr" := channel [1%nat]]>
          (<["muscles_mf" := channel [2%nat]]> ∅)))
    (<["muscles" := channel [0%nat]]> ∅).

(** One joint: the negative side occupies rows 0, 1, 2 of the state
    vector and row 0 of the control vector, the positive side rows 3, 4, 5
    and row 1. *)
Definition tau_nlp : NonLinearProgram.t :=
  NonLinearProgram.Build
    (<["tau_minus_ma" := channel [0%nat]]>
       (<["tau_minus_mr" := channel [1%nat]]>
          (<["tau_minus_mf" := channel [2%nat]]>
             (<["tau_plus_ma" := channel [3%nat]]>
                (<["tau_plus_mr" := channel [4%nat]]>
                   (<["tau_plus_mf" := channel [5%nat]]> ∅))))))
    (<["tau" := channel [0%nat; 1%nat]]>
       (<["tau_minus" := channel [0%nat]]>
          (<["tau_plus" := channel [1%nat]]> ∅))).

(** A context without any control channel. *)
Definition bare_nlp : NonLinearProgram.t := NonLinearProgram.Build ∅ ∅.

Definition tau_model : XiaTauFatigue.t :=
  XiaTauFatigue.__init__ minus_model plus_model true.

(** * Properties *)

(** ** The switched law *)

Lemma lt_spec (x y : Q) : lt x y = true <-> x < y.
Proof.
  unfold lt. rewrite negb_true_iff, <- not_true_iff_false, Qle_bool_iff.
  split; [apply Qnot_le_lt | apply Qlt_not_le].
Qed.

Lemma lt_false_spec (x y : Q) : lt x y = false <-> y <= x.
Proof.
  unfold lt. rewrite negb_false_iff. apply Qle_bool_iff.
Qed.

Lemma transfer_rate_relax (self : XiaFatigue.t) (target_load ma mr : Q) :
  target_load <= ma ->
  XiaFatigue.transfer_rate self target_load ma mr
    = XiaFatigue.LR self * (target_load - ma).
Proof.
  intros Hle. unfold XiaFatigue.transfer_rate.
  apply lt_false_spec in Hle. now rewrite Hle.
Qed.

Lemma transfer_rate_ideal (self : XiaFatigue.t) (target_load ma mr : Q) :
  ma < target_load -> target_load - ma < mr ->
  XiaFatigue.transfer_rate self target_load ma mr
    = XiaFatigue.LD self * (target_load - ma).
Proof.
  intros Hlt Hgt. unfold XiaFatigue.transfer_rate, gt.
  apply lt_spec in Hlt, Hgt. now rewrite Hlt, Hgt.
Qed.

Lemma transfer_rate_capped (self : XiaFatigue.t) (target_load ma mr : Q) :
  ma < target_load -> mr <= target_load - ma ->
  XiaFatigue.transfer_rate self target_load ma mr = XiaFatigue.LD self * mr.
Proof.
  intros Hlt Hle. unfold XiaFatigue.transfer_rate, gt.
  apply lt_spec in Hlt. apply lt_false_spec in Hle. now rewrite Hlt, Hle.
Qed.

(** C1. Conservation: whatever the parameters and the inputs, the three
    derivatives returned by [apply_dynamics] sum to zero, exactly, in every
    regime. *)
Theorem apply_dynamics_conservation
    (self : XiaFatigue.t) (target_load ma mr mf : Q) :
  exists ma_dot mr_dot mf_dot : Q,
    XiaFatigue.apply_dynamics self target_load [ma; mr; mf]
      = Ok [ma_dot; mr_dot; mf_dot]
    /\ ma_dot + mr_dot + mf_dot == 0.
Proof.
  eexists _, _, _. split; [reflexivity |].
  cbv zeta. ring.
Qed.

(** C2. Relaxation regime: when [ma >= target_load], equality included, the
    transfer rate is [LR * (target_load - ma)] whatever [mr] and [mf] are,
    and the derivatives are [c - F*ma], [-c + R*mf], [F*ma - R*mf]. *)
Theorem apply_dynamics_relaxation
    (self : XiaFatigue.t) (target_load ma mr mf : Q) :
  target_load <= ma ->
  let c := XiaFatigue.LR self * (target_load - ma) in
  XiaFatigue.transfer_rate self target_load ma mr = c
  /\ XiaFatigue.apply_dynamics self target_load [ma; mr; mf]
       = Ok [c - XiaFatigue.F self * ma;
             - c + XiaFatigue.R self * mf;
             XiaFatigue.F self * ma - XiaFatigue.R self * mf].
Proof.
  intros Hle c. split.
  - now apply transfer_rate_relax.
  - unfold XiaFatigue.apply_dynamics, vertcat. cbv zeta.
    now rewrite (transfer_rate_relax self target_load ma mr Hle).
Qed.

Lemma apply_dynamics_relaxation_witness :
  XiaFatigue.transfer_rate unit_model (3 # 10) (1 # 2) (1 # 2)
    = 1 * ((3 # 10) - (1 # 2))
  /\ XiaFatigue.transfer_rate unit_model (1 # 2) (1 # 2) (1 # 4)
    = 1 * ((1 # 2) - (1 # 2)).
Proof.
  split.
  - apply (apply_dynamics_relaxation unit_model (3 # 10) (1 # 2) (1 # 2) 0).
    unfold Qle; simpl; lia.
  - apply (apply_dynamics_relaxation unit_model (1 # 2) (1 # 2) (1 # 4) 0).
    unfold Qle; simpl; lia.
Defined.

Lemma Qmin_nonexpansive (x y d : Q) :
  Qabs (Qmin x d - Qmin y d) <= Qabs (x - y).
Proof.
  pose proof (Qle_Qabs (x - y)) as Hxy.
  pose proof (Qle_Qabs (y - x)) as Hyx.
  assert (Hsym : Qabs (y - x) == Qabs (x - y)).
  { rewrite <- (Qabs_opp (x - y)). apply Qabs_wd. ring. }
  rewrite Hsym in Hyx.
  apply Qabs_Qle_condition.
  destruct (Q.min_spec x d) as [[H1 E1] | [H1 E1]],
           (Q.min_spec y d) as [[H2 E2] | [H2 E2]];
    rewrite E1, E2; revert Hxy Hyx; generalize (Qabs (x - y));
    intros a ? ?; split; lra.
Qed.

Lemma transfer_rate_min (self : XiaFatigue.t) (target_load ma mr : Q) :
  ma < target_load ->
  XiaFatigue.transfer_rate self target_load ma mr
    == XiaFatigue.LD self * Qmin mr (target_load - ma).
Proof.
  intros Hlt.
  destruct (Qlt_le_dec (target_load - ma) mr) as [Hgt | Hle].
  - rewrite (transfer_rate_ideal _ _ _ _ Hlt Hgt).
    rewrite Q.min_r; [reflexivity | now apply Qlt_le_weak].
  - rewrite (transfer_rate_capped _ _ _ _ Hlt Hle).
    rewrite Q.min_l; [reflexivity | assumption].
Qed.

Lemma transfer_rate_lipschitz (self : XiaFatigue.t) (target_load ma mr mr' : Q) :
  ma < target_load ->
  Qabs (XiaFatigue.transfer_rate self target_load ma mr
        - XiaFatigue.transfer_rate self target_load ma mr')
    <= Qabs (XiaFatigue.LD self) * Qabs (mr - mr').
Proof.
  intros Hlt.
  rewrite (transfer_rate_min self target_load ma mr Hlt).
  rewrite (transfer_rate_min self target_load ma mr' Hlt).
  setoid_replace (XiaFatigue.LD self * Qmin mr (target_load - ma)
                  - XiaFatigue.LD self * Qmin mr' (target_load - ma))
    with (XiaFatigue.LD self
          * (Qmin mr (target_load - ma) - Qmin mr' (target_load - ma)))
    using relation Qeq by ring.
  rewrite Qabs_Qmult.
  apply Qmult_le_compat_nonneg.
  - split; [apply Qabs_nonneg | apply Qle_refl].
  - split; [apply Qabs_nonneg | apply Qmin_nonexpansive].
Qed.

Lemma apply_dynamics_rows (self : XiaFatigue.t) (target_load ma mr mf c : Q) :
  XiaFatigue.transfer_rate self target_load ma mr = c ->
  XiaFatigue.apply_dynamics self target_load [ma; mr; mf]
    = Ok [c - XiaFatigue.F self * ma;
          - c + XiaFatigue.R self * mf;
          XiaFatigue.F self * ma - XiaFatigue.R self * mf].
Proof.
  intros <-. unfold XiaFatigue.apply_dynamics, vertcat. reflexivity.
Qed.

(** C3. Development regime: when [ma < target_load], [apply_dynamics] takes
    the transfer rate [c] to be [LD * (target_load - ma)] if
    [mr > target_load - ma] and [LD * mr] otherwise, and returns the rows
    [c - F*ma], [-c + R*mf], [F*ma - R*mf] for that [c].  Both formulas
    agree where [mr] equals [target_load - ma].  The rate is
    [LD * min mr (target_load - ma)] throughout, so as a function of [mr]
    it moves by at most [|LD|] times the change of [mr], and so do the
    first two rows that [apply_dynamics] returns, while the third does not
    move: the law is continuous in [mr], at the boundary as elsewhere. *)
Theorem apply_dynamics_development
    (self : XiaFatigue.t) (target_load ma mr mf : Q) :
  ma < target_load ->
  (target_load - ma < mr ->
     XiaFatigue.transfer_rate self target_load ma mr
       = XiaFatigue.LD self * (target_load - ma)
     /\ XiaFatigue.apply_dynamics self target_load [ma; mr; mf]
        = Ok [XiaFatigue.LD self * (target_load - ma) - XiaFatigue.F self * ma;
              - (XiaFatigue.LD self * (target_load - ma)) + XiaFatigue.R self * mf;
              XiaFatigue.F self * ma - XiaFatigue.R self * mf])
  /\ (mr <= target_load - ma ->
     XiaFatigue.transfer_rate self target_load ma mr = XiaFatigue.LD self * mr
     /\ XiaFatigue.apply_dynamics self target_load [ma; mr; mf]
        = Ok [XiaFatigue.LD self * mr - XiaFatigue.F self * ma;
              - (XiaFatigue.LD self * mr) + XiaFatigue.R self * mf;
              XiaFatigue.F self * ma - XiaFatigue.R self * mf])
  /\ (mr == target_load - ma ->
     XiaFatigue.LD self * (target_load - ma) == XiaFatigue.LD self * mr)
  /\ XiaFatigue.transfer_rate self target_load ma mr
       == XiaFatigue.LD self * Qmin mr (target_load - ma)
  /\ (forall mr' : Q,
     Qabs (XiaFatigue.transfer_rate self target_load ma mr
           - XiaFatigue.transfer_rate self target_load ma mr')
       <= Qabs (XiaFatigue.LD self) * Qabs (mr - mr')
     /\ exists ma_dot mr_dot mf_dot ma_dot' mr_dot' mf_dot' : Q,
          XiaFatigue.apply_dynamics self target_load [ma; mr; mf]
            = Ok [ma_dot; mr_dot; mf_dot]
          /\ XiaFatigue.apply_dynamics self target_load [ma; mr'; mf]
            = Ok [ma_dot'; mr_dot'; mf_dot']
          /\ Qabs (ma_dot - ma_dot') <= Qabs (XiaFatigue.LD self) * Qabs (mr - mr')
          /\ Qabs (mr_dot - mr_dot') <= Qabs (XiaFatigue.LD self) * Qabs (mr - mr')
          /\ mf_dot == mf_dot').
Proof.
  intros Hlt. split; [| split; [| split; [| split]]].
  - intros Hgt.
    pose proof (transfer_rate_ideal self target_load ma mr Hlt Hgt) as Hc.
    split; [exact Hc | exact (apply_dynamics_rows self target_load ma mr mf _ Hc)].
  - intros Hle.
    pose proof (transfer_rate_capped self target_load ma mr Hlt Hle) as Hc.
    split; [exact Hc | exact (apply_dynamics_rows self target_load ma mr mf _ Hc)].
  - intros ->. reflexivity.
  - now apply transfer_rate_min.
  - intros mr'.
    pose proof (transfer_rate_lipschitz self target_load ma mr mr' Hlt) as Hlip.
    split; [exact Hlip |].
    do 6 eexists.
    split; [exact (apply_dynamics_rows self target_load ma mr mf _ eq_refl) |].
    split; [exact (apply_dynamics_rows self target_load ma mr' mf _ eq_refl) |].
    split; [| split; [| reflexivity]].
    + setoid_replace
        (XiaFatigue.transfer_rate self target_load ma mr - XiaFatigue.F self * ma
         - (XiaFatigue.transfer_rate self target_load ma mr'
            - XiaFatigue.F self * ma))
        with (XiaFatigue.transfer_rate self target_load ma mr
              - XiaFatigue.transfer_rate self target_load ma mr')
        using relation Qeq by ring.
      exact Hlip.
    + setoid_replace
        (- XiaFatigue.transfer_rate self target_load ma mr + XiaFatigue.R self * mf
         - (- XiaFatigue.transfer_rate self target_load ma mr'
            + XiaFatigue.R self * mf))
        with (- (XiaFatigue.transfer_rate self target_load ma mr
                 - XiaFatigue.transfer_rate self target_load ma mr'))
        using relation Qeq by ring.
      rewrite Qabs_opp. exact Hlip.
Qed.

Lemma apply_dynamics_development_witness :
  (XiaFatigue.transfer_rate unit_model (1 # 2) (1 # 10) (9 # 10)
     = 1 * ((1 # 2) - (1 # 10))
   /\ XiaFatigue.apply_dynamics unit_model (1 # 2) [1 # 10; 9 # 10; 0]
      = Ok [1 * ((1 # 2) - (1 # 10)) - 1 * (1 # 10);
            - (1 * ((1 # 2) - (1 # 10))) + 1 * 0;
            1 * (1 # 10) - 1 * 0])
  /\ (XiaFatigue.transfer_rate unit_model (1 # 2) (1 # 10) (2 # 10)
     = 1 * (2 # 10)
   /\ XiaFatigue.apply_dynamics unit_model (1 # 2) [1 # 10; 2 # 10; 0]
      = Ok [1 * (2 # 10) - 1 * (1 # 10);
            - (1 * (2 # 10)) + 1 * 0;
            1 * (1 # 10) - 1 * 0]).
Proof.
  assert (H : (1 # 10) < (1 # 2)) by (unfold Qlt; simpl; lia).
  split.
  - apply (apply_dynamics_development unit_model (1 # 2) (1 # 10) (9 # 10) 0 H).
    unfold Qlt; simpl; lia.
  - apply (apply_dynamics_development unit_model (1 # 2) (1 # 10) (2 # 10) 0 H).
    unfold Qle; simpl; lia.
Defined.

(** ** Lookups *)

Lemma contains_true (name : string) (c : gmap string OptimizationVariable.t) :
  contains name c = true <-> is_Some (c !! name).
Proof. unfold contains. apply bool_decide_eq_true. Qed.

Lemma contains_false (name : string) (c : gmap string OptimizationVariable.t) :
  contains name c = false <-> c !! name = None.
Proof.
  unfold contains. rewrite bool_decide_eq_false. symmetry. apply eq_None_not_Some.
Qed.

Lemma getitem_Some (c : gmap string OptimizationVariable.t) (name : string)
    (var : OptimizationVariable.t) :
  c !! name = Some var -> getitem c name = Ok var.
Proof. unfold getitem. now intros ->. Qed.

Lemma row_Some {A : Type} (v : list A) (i : nat) (x : A) :
  v !! i = Some x -> row v i = Ok x.
Proof. unfold row. now intros ->. Qed.

Lemma bind_Ok {A B : Type} (r : result A) (a : A) (f : A -> result B) :
  r = Ok a -> r ≫= f = f a.
Proof. now intros ->. Qed.

Lemma bind_lift {A B : Type} (r : result A) (f : A -> Dx B) (dxdt : list Q) :
  (lift r ≫= f) dxdt
    = match r with
      | Ok a => f a dxdt
      | Raise e => (Raise e, dxdt)
      end.
Proof. unfold mbind, Dx_bind, lift. now destruct r. Qed.

(** ** Target load *)

(** The single-muscle path hands the raw control row over as it is. *)
Lemma muscle_target_load_raw (self : XiaFatigue.t) (nlp : NonLinearProgram.t)
    (controls : list Q) (index : nat)
    (var : OptimizationVariable.t) (col : list Q) (raw : Q) :
  NonLinearProgram.controls nlp !! "muscles" = Some var ->
  DynamicsFunctions.get var controls = Ok col ->
  col !! index = Some raw ->
  XiaFatigue._get_target_load self nlp controls index = Ok raw.
Proof.
  intros Hvar Hcol Hraw. unfold XiaFatigue._get_target_load.
  assert (Hin : contains "muscles" (NonLinearProgram.controls nlp) = true)
    by (apply contains_true; eauto).
  rewrite Hin. cbn [negb].
  rewrite (bind_Ok _ _ _ (getitem_Some _ _ _ Hvar)).
  rewrite (bind_Ok _ _ _ Hcol).
  now apply row_Some.
Qed.


(** C4. At a muscle model of scale 2 and a raw control of 2, the
    single-muscle path returns the target load 2, which is not the raw
    control divided by the scale (that would be 1); the per-direction path
    at the same scale and raw control does return 1. *)
Theorem muscle_target_load_ignores_scale :
  XiaFatigue._get_target_load scaled_model muscle_nlp [2] 0 = Ok 2
  /\ ~ 2 == 2 / XiaFatigue.scale scaled_model
  /\ exists tl : Q,
       XiaTauFatigue._get_target_load tau_model plus_model "plus" tau_nlp [0; 2] 0
         = Ok tl
       /\ tl == 1.
Proof.
  split; [| split].
  - vm_compute. reflexivity.
  - vm_compute. discriminate.
  - eexists. split; [vm_compute; reflexivity | reflexivity].
Qed.

(** ** Which error, and when *)

Lemma supported_Ok {A : Type} (a : A) : supported (Ok a).
Proof. discriminate. Qed.

Lemma supported_bind {A B : Type} (r : result A) (f : A -> result B) :
  supported r -> (forall a, supported (f a)) -> supported (r ≫= f).
Proof.
  intros Hr Hf. destruct r as [a | e]; [apply Hf |].
  intros H. apply Hr. inversion H. reflexivity.
Qed.

Lemma supported_getitem (c : gmap string OptimizationVariable.t) (name : string) :
  supported (getitem c name).
Proof. unfold getitem. destruct (c !! name); discriminate. Qed.

Lemma supported_row {A : Type} (v : list A) (i : nat) : supported (row v i).
Proof. unfold row. destruct (v !! i); discriminate. Qed.

Lemma supported_mapM {A B : Type} (f : A -> result B) (l : list A) :
  (forall a, supported (f a)) -> supported (mapM f l).
Proof.
  intros Hf. induction l as [| x l IH]; [discriminate |].
  cbn [mapM]. apply supported_bind; [apply Hf |].
  intros y. apply supported_bind; [exact IH | discriminate].
Qed.

Lemma supported_get (var : OptimizationVariable.t) (cx : list Q) :
  supported (DynamicsFunctions.get var cx).
Proof. apply supported_mapM. intros j. apply supported_row. Qed.

Lemma supported_suffix (v : option VariableType) : supported (XiaFatigue.suffix v).
Proof.
  destruct v as [v |]; [| discriminate].
  unfold XiaFatigue.suffix. case_decide; discriminate.
Qed.

Lemma supported_apply_dynamics (self : XiaFatigue.t) (tl : Q) (st : list Q) :
  supported (XiaFatigue.apply_dynamics self tl st).
Proof.
  destruct st as [| ? [| ? [| ? [| ? ?]]]]; discriminate.
Qed.

Lemma supportedD_lift {A : Type} (r : result A) : supported r -> supportedD (lift r).
Proof. intros Hr dxdt. exact Hr. Qed.

Lemma supportedD_bind {A B : Type} (m : Dx A) (f : A -> Dx B) :
  supportedD m -> (forall a, supportedD (f a)) -> supportedD (m ≫= f).
Proof.
  intros Hm Hf dxdt. unfold mbind, Dx_bind.
  specialize (Hm dxdt). destruct (m dxdt) as [[a | e] d']; [apply Hf |].
  intros H. apply Hm. inversion H. reflexivity.
Qed.

Lemma supportedD_setitem (r : nat) (v : Q) : supportedD (setitem r v).
Proof. intros dxdt. unfold setitem. case_decide; discriminate. Qed.

Lemma supportedD_return_dxdt : supportedD return_dxdt.
Proof. intros dxdt. discriminate. Qed.

Lemma supportedD_for_each {A : Type} (body : A -> Dx unit) (l : list A) :
  (forall x, supportedD (body x)) -> supportedD (for_each body l).
Proof.
  intros Hb. induction l as [| x l IH]; [intros dxdt; discriminate |].
  cbn [for_each]. apply supportedD_bind; [apply Hb | intros _; exact IH].
Qed.

Create HintDb supported.

#[local] Hint Resolve supported_Ok supported_getitem supported_row
  supported_get supported_suffix supported_apply_dynamics
  supportedD_setitem supportedD_return_dxdt : supported.

Ltac supported_steps :=
  repeat first
    [ apply supportedD_return_dxdt
    | apply supportedD_setitem
    | apply supportedD_for_each; intros ?
    | apply supportedD_bind; [| intros ?]
    | apply supportedD_lift
    | apply supported_bind; [| intros ?]
    | apply supported_mapM; intros ?
    | solve [auto with supported] ].

Lemma muscle_target_load_absent (self : XiaFatigue.t) (nlp : NonLinearProgram.t)
    (controls : list Q) (index : nat) :
  NonLinearProgram.controls nlp !! "muscles" = None ->
  XiaFatigue._get_target_load self nlp controls index = Raise NotImplementedError.
Proof.
  intros Hno. unfold XiaFatigue._get_target_load.
  apply contains_false in Hno. now rewrite Hno.
Qed.

Lemma muscle_target_load_present (self : XiaFatigue.t) (nlp : NonLinearProgram.t)
    (controls : list Q) (index : nat) :
  is_Some (NonLinearProgram.controls nlp !! "muscles") ->
  supported (XiaFatigue._get_target_load self nlp controls index).
Proof.
  intros Hin. unfold XiaFatigue._get_target_load.
  apply contains_true in Hin. rewrite Hin. cbn [negb]. supported_steps.
Qed.

Lemma tau_target_load_absent (self : XiaTauFatigue.t) (var : XiaFatigue.t)
    (suffix : string) (nlp : NonLinearProgram.t) (controls : list Q) (index : nat) :
  NonLinearProgram.controls nlp !! "tau" = None ->
  XiaTauFatigue._get_target_load self var suffix nlp controls index
    = Raise NotImplementedError.
Proof.
  intros Hno. unfold XiaTauFatigue._get_target_load.
  apply contains_false in Hno. now rewrite Hno.
Qed.

Lemma tau_target_load_present (self : XiaTauFatigue.t) (var : XiaFatigue.t)
    (suffix : string) (nlp : NonLinearProgram.t) (controls : list Q) (index : nat) :
  is_Some (NonLinearProgram.controls nlp !! "tau") ->
  supported (XiaTauFatigue._get_target_load self var suffix nlp controls index).
Proof.
  intros Hin. unfold XiaTauFatigue._get_target_load.
  apply contains_true in Hin. rewrite Hin. cbn [negb]. supported_steps.
Qed.

Lemma muscle_dynamics_absent (self : XiaFatigue.t) (nlp : NonLinearProgram.t)
    (index : nat) (states controls dxdt : list Q) :
  NonLinearProgram.controls nlp !! "muscles" = None ->
  XiaFatigue.dynamics self nlp index states controls dxdt
    = (Raise NotImplementedError, dxdt).
Proof.
  intros Hno. unfold XiaFatigue.dynamics.
  now rewrite bind_lift, (muscle_target_load_absent _ _ _ _ Hno).
Qed.

Lemma muscle_dynamics_present (self : XiaFatigue.t) (nlp : NonLinearProgram.t)
    (index : nat) (states controls : list Q) :
  is_Some (NonLinearProgram.controls nlp !! "muscles") ->
  supportedD (XiaFatigue.dynamics self nlp index states controls).
Proof.
  intros Hin. unfold XiaFatigue.dynamics, XiaFatigue.write_back,
    XiaFatigue.fatigue_of.
  apply supportedD_bind;
    [apply supportedD_lift; now apply muscle_target_load_present |].
  intros tl. supported_steps.
Qed.

Lemma tau_dynamics_absent (self : XiaTauFatigue.t) (suffix : string)
    (var : XiaFatigue.t) (nlp : NonLinearProgram.t)
    (index : nat) (states controls dxdt : list Q) :
  XiaTauFatigue.lookup_key suffix (XiaTauFatigue.models self) = Ok var ->
  NonLinearProgram.controls nlp !! "tau" = None ->
  XiaTauFatigue._dynamics_per_suffix self suffix nlp index states controls dxdt
    = (Raise NotImplementedError, dxdt).
Proof.
  intros Hvar Hno. unfold XiaTauFatigue._dynamics_per_suffix.
  rewrite bind_lift, Hvar.
  now rewrite bind_lift, (tau_target_load_absent _ _ _ _ _ _ Hno).
Qed.

Lemma tau_dynamics_present (self : XiaTauFatigue.t) (suffix : string)
    (var : XiaFatigue.t) (nlp : NonLinearProgram.t)
    (index : nat) (states controls : list Q) :
  XiaTauFatigue.lookup_key suffix (XiaTauFatigue.models self) = Ok var ->
  is_Some (NonLinearProgram.controls nlp !! "tau") ->
  supportedD (XiaTauFatigue._dynamics_per_suffix self suffix nlp index states controls).
Proof.
  intros Hvar Hin. unfold XiaTauFatigue._dynamics_per_suffix,
    XiaTauFatigue.write_back, XiaTauFatigue.fatigue_of.
  rewrite Hvar.
  apply supportedD_bind; [apply supportedD_lift, supported_Ok |].
  intros v.
  apply supportedD_bind;
    [apply supportedD_lift; now apply tau_target_load_present |].
  intros tl. supported_steps.
Qed.

(** ** Write-back of the per-direction path *)

Lemma setitem_in_range (r : nat) (v : Q) (dxdt : list Q) :
  (r < length dxdt)%nat -> setitem r v dxdt = (Ok tt, <[r:=v]> dxdt).
Proof. intros Hr. unfold setitem. now rewrite decide_True. Qed.

Lemma tau_fatigue_of_Ok (suffix : string) (nlp : NonLinearProgram.t)
    (index : nat) (states : list Q) (s : string)
    (var : OptimizationVariable.t) (x : Q) :
  NonLinearProgram.states nlp !! ("tau_" +:+ suffix +:+ "_" +:+ s) = Some var ->
  (DynamicsFunctions.get var states ≫= fun col => row col index) = Ok x ->
  XiaTauFatigue.fatigue_of suffix nlp index states s = Ok x.
Proof.
  intros Hvar Hx. unfold XiaTauFatigue.fatigue_of.
  now rewrite (bind_Ok _ _ _ (getitem_Some _ _ _ Hvar)).
Qed.

Lemma tau_write_back_Ok (suffix : string) (nlp : NonLinearProgram.t)
    (index : nat) (current_dxdt : list Q) (i : nat) (s : string)
    (var : OptimizationVariable.t) (v : Q) (r : nat) (dxdt : list Q) :
  current_dxdt !! i = Some v ->
  NonLinearProgram.states nlp !! ("tau_" +:+ suffix +:+ "_" +:+ s) = Some var ->
  OptimizationVariable.index var !! index = Some r ->
  (r < length dxdt)%nat ->
  XiaTauFatigue.write_back suffix nlp index current_dxdt (i, s) dxdt
    = (Ok tt, <[r:=v]> dxdt).
Proof.
  intros Hv Hvar Hr Hlt. unfold XiaTauFatigue.write_back. cbn [fst snd].
  rewrite bind_lift, (row_Some _ _ _ Hv).
  rewrite bind_lift, (getitem_Some _ _ _ Hvar).
  rewrite bind_lift, (row_Some _ _ _ Hr).
  now apply setitem_in_range.
Qed.

(** When every lookup of the per-direction path succeeds and the three
    destination rows exist, the call completes, returns the updated vector,
    and has written the three derivatives of [apply_dynamics] into the rows
    of this side's [ma], [mr], [mf] entries and nothing else; the length of
    the vector is unchanged. *)
Lemma tau_dynamics_writes (self : XiaTauFatigue.t) (suffix : string)
    (var : XiaFatigue.t) (nlp : NonLinearProgram.t) (index : nat)
    (states controls dxdt : list Q) (tl : Q)
    (vma vmr vmf : OptimizationVariable.t) (ma mr mf : Q) (ra rr rf : nat) :
  XiaTauFatigue.lookup_key suffix (XiaTauFatigue.models self) = Ok var ->
  XiaTauFatigue._get_target_load self var suffix nlp controls index = Ok tl ->
  NonLinearProgram.states nlp !! ("tau_" +:+ suffix +:+ "_" +:+ "ma") = Some vma ->
  NonLinearProgram.states nlp !! ("tau_" +:+ suffix +:+ "_" +:+ "mr") = Some vmr ->
  NonLinearProgram.states nlp !! ("tau_" +:+ suffix +:+ "_" +:+ "mf") = Some vmf ->
  (DynamicsFunctions.get vma states ≫= fun col => row col index) = Ok ma ->
  (DynamicsFunctions.get vmr states ≫= fun col => row col index) = Ok mr ->
  (DynamicsFunctions.get vmf states ≫= fun col => row col index) = Ok mf ->
  OptimizationVariable.index vma !! index = Some ra ->
  OptimizationVariable.index vmr !! index = Some rr ->
  OptimizationVariable.index vmf !! index = Some rf ->
  (ra < length dxdt)%nat -> (rr < length dxdt)%nat -> (rf < length dxdt)%nat ->
  let c := XiaFatigue.transfer_rate var tl ma mr in
  let out :=
    <[rf := XiaFatigue.F var * ma - XiaFatigue.R var * mf]>
      (<[rr := - c + XiaFatigue.R var * mf]>
         (<[ra := c - XiaFatigue.F var * ma]> dxdt)) in
  XiaFatigue.apply_dynamics var tl [ma; mr; mf]
    = Ok [c - XiaFatigue.F var * ma;
          - c + XiaFatigue.R var * mf;
          XiaFatigue.F var * ma - XiaFatigue.R var * mf]
  /\ XiaTauFatigue._dynamics_per_suffix self suffix nlp index states controls dxdt
     = (Ok out, out)
  /\ length out = length dxdt
  /\ (forall j : nat, j <> ra -> j <> rr -> j <> rf -> out !! j = dxdt !! j).
Proof.
  intros Hvar Htl Hma Hmr Hmf Hxa Hxr Hxf Hra Hrr Hrf Hla Hlr Hlf c out.
  split; [reflexivity |]. split; [| split].
  - unfold XiaTauFatigue._dynamics_per_suffix.
    rewrite bind_lift, Hvar. rewrite bind_lift, Htl. rewrite bind_lift.
    assert (Hgather :
      XiaFatigue.suffix (Some STATES)
        ≫= mapM (XiaTauFatigue.fatigue_of suffix nlp index states)
      = Ok [ma; mr; mf]).
    { cbn [XiaFatigue.suffix]. rewrite decide_True by reflexivity.
      cbn [mbind result_bind mapM].
      rewrite (tau_fatigue_of_Ok _ _ _ _ _ _ _ Hma Hxa).
      rewrite (tau_fatigue_of_Ok _ _ _ _ _ _ _ Hmr Hxr).
      rewrite (tau_fatigue_of_Ok _ _ _ _ _ _ _ Hmf Hxf).
      reflexivity. }
    rewrite Hgather. rewrite bind_lift.
    cbn [XiaFatigue.apply_dynamics vertcat]. cbv zeta. fold c.
    rewrite bind_lift.
    cbn [XiaFatigue.suffix]. rewrite decide_True by reflexivity.
    unfold enumerate. cbn [length seq zip zip_with for_each].
    unfold mbind at 1, Dx_bind at 1. unfold mbind at 1, Dx_bind at 1.
    erewrite (tau_write_back_Ok _ _ _ _ 0 "ma" vma _ ra dxdt);
      [| reflexivity | exact Hma | exact Hra | exact Hla].
    unfold mbind at 1, Dx_bind at 1.
    erewrite (tau_write_back_Ok _ _ _ _ 1 "mr" vmr _ rr);
      [| reflexivity | exact Hmr | exact Hrr | now rewrite length_insert].
    unfold mbind at 1, Dx_bind at 1.
    erewrite (tau_write_back_Ok _ _ _ _ 2 "mf" vmf _ rf);
      [| reflexivity | exact Hmf | exact Hrf | now rewrite !length_insert].
    reflexivity.
  - subst out. now rewrite !length_insert.
  - intros j Ha Hr Hf. subst out.
    now rewrite !list_lookup_insert_ne by congruence.
Qed.

Example tau_dynamics_writes_example :
  exists out : list Q,
    XiaTauFatigue._dynamics_per_suffix tau_model "plus" tau_nlp 0
      [0; 1; 0; 1 # 2; 1 # 2; 0] [0; 3 # 5] [7; 8; 9; 10; 11; 12] = (Ok out, out)
    /\ length out = 6%nat
    /\ out !! 0%nat = Some 7 /\ out !! 1%nat = Some 8 /\ out !! 2%nat = Some 9.
Proof.
  edestruct (tau_dynamics_writes tau_model "plus" plus_model tau_nlp 0
               [0; 1; 0; 1 # 2; 1 # 2; 0] [0; 3 # 5] [7; 8; 9; 10; 11; 12])
    as (_ & Hrun & Hlen & Hrest).
  1-11: vm_compute; reflexivity.
  1-3: vm_compute; lia.
  eexists. split; [exact Hrun |]. split; [exact Hlen |].
  repeat split; rewrite Hrest by discriminate; reflexivity.
Qed.

(** The per-direction path tests for "tau" but reads "tau_<suffix>": with
    the first present and the second missing the lookup fails. *)
Example tau_direction_channel_missing_example :
  XiaTauFatigue._dynamics_per_suffix tau_model "minus"
    (NonLinearProgram.Build (NonLinearProgram.states tau_nlp)
       (<["tau" := channel [0%nat]]> ∅))
    0 [1 # 2; 1 # 2; 0] [3 # 10] [7; 8; 9]
  = (Raise KeyError, [7; 8; 9]).
Proof. vm_compute. reflexivity. Qed.

(** C5. [XiaFatigue.dynamics] never completes: on every input it ends in an
    exception and leaves the derivative vector as it was.  With the
    "muscles" channel and all three state channels present, the target load
    and the three derivatives are computed, and the call [self.suffix()]
    that opens the write-back loop then raises [TypeError] before any row
    is written. *)
Theorem muscle_dynamics_never_completes :
  (forall (self : XiaFatigue.t) (nlp : NonLinearProgram.t) (index : nat)
          (states controls dxdt : list Q),
     exists e : exn,
       XiaFatigue.dynamics self nlp index states controls dxdt = (Raise e, dxdt))
  /\ XiaFatigue.apply_dynamics unit_model (3 # 10) [1 # 2; 1 # 2; 0]
       = Ok [(-28) # 40; 4 # 20; 1 # 2]
  /\ XiaFatigue.dynamics unit_model muscle_nlp 0 [1 # 2; 1 # 2; 0] [3 # 10] [7; 8; 9]
       = (Raise TypeError, [7; 8; 9]).
Proof.
  split; [| split; vm_compute; reflexivity].
  intros self nlp index states controls dxdt. unfold XiaFatigue.dynamics.
  rewrite bind_lift.
  destruct (XiaFatigue._get_target_load self nlp controls index) as [tl | e];
    [| eauto].
  rewrite bind_lift.
  destruct (XiaFatigue.suffix (Some STATES)
              ≫= mapM (XiaFatigue.fatigue_of nlp index states)) as [fatigue | e];
    [| eauto].
  rewrite bind_lift.
  destruct (XiaFatigue.apply_dynamics self tl fatigue) as [current_dxdt | e];
    [| eauto].
  rewrite bind_lift. cbn [XiaFatigue.suffix]. eauto.
Qed.

(** C6. The unsupported-control error is raised exactly when the required
    channel is missing from the control collection: by [XiaFatigue.dynamics]
    when "muscles" is missing, and by the per-direction dynamics of a
    configured key when "tau" is missing.  When that error is raised the
    derivative vector is as it was before the call. *)
Theorem unsupported_control_kind :
  (forall (self : XiaFatigue.t) (nlp : NonLinearProgram.t) (index : nat)
          (states controls dxdt : list Q),
     let out := XiaFatigue.dynamics self nlp index states controls dxdt in
     (out.1 = Raise NotImplementedError
        <-> NonLinearProgram.controls nlp !! "muscles" = None)
     /\ (out.1 = Raise NotImplementedError -> out.2 = dxdt))
  /\ (forall (self : XiaTauFatigue.t) (suffix : string) (var : XiaFatigue.t)
          (nlp : NonLinearProgram.t) (index : nat) (states controls dxdt : list Q),
     XiaTauFatigue.lookup_key suffix (XiaTauFatigue.models self) = Ok var ->
     let out :=
       XiaTauFatigue._dynamics_per_suffix self suffix nlp index states controls dxdt in
     (out.1 = Raise NotImplementedError
        <-> NonLinearProgram.controls nlp !! "tau" = None)
     /\ (out.1 = Raise NotImplementedError -> out.2 = dxdt)).
Proof.
  split.
  - intros self nlp index states controls dxdt out.
    assert (Hiff : out.1 = Raise NotImplementedError
                   <-> NonLinearProgram.controls nlp !! "muscles" = None).
    { split.
      - intros Hout.
        destruct (NonLinearProgram.controls nlp !! "muscles") as [v |] eqn:Hc;
          [| reflexivity].
        exfalso.
        apply (muscle_dynamics_present self nlp index states controls) with dxdt;
          [rewrite Hc; eauto | exact Hout].
      - intros Hno. subst out. now rewrite muscle_dynamics_absent. }
    split; [exact Hiff |].
    intros Hout. apply Hiff in Hout. subst out.
    now rewrite muscle_dynamics_absent.
  - intros self suffix var nlp index states controls dxdt Hvar out.
    assert (Hiff : out.1 = Raise NotImplementedError
                   <-> NonLinearProgram.controls nlp !! "tau" = None).
    { split.
      - intros Hout.
        destruct (NonLinearProgram.controls nlp !! "tau") as [v |] eqn:Hc;
          [| reflexivity].
        exfalso.
        apply (tau_dynamics_present self suffix var nlp index states controls Hvar)
          with dxdt; [rewrite Hc; eauto | exact Hout].
      - intros Hno. subst out. now rewrite (tau_dynamics_absent _ _ var). }
    split; [exact Hiff |].
    intros Hout. apply Hiff in Hout. subst out.
    now rewrite (tau_dynamics_absent _ _ var).
Qed.

Lemma unsupported_control_kind_witness :
  (XiaTauFatigue._dynamics_per_suffix tau_model "minus" bare_nlp 0 [] [] [7; 8; 9]).1
    = Raise NotImplementedError
  /\ (XiaTauFatigue._dynamics_per_suffix tau_model "minus" bare_nlp 0 [] [] [7; 8; 9]).2
    = [7; 8; 9].
Proof.
  assert (Hkey : XiaTauFatigue.lookup_key "minus" (XiaTauFatigue.models tau_model)
                 = Ok minus_model) by reflexivity.
  pose proof (proj2 unsupported_control_kind tau_model "minus" minus_model
                bare_nlp 0%nat [] [] [7; 8; 9] Hkey) as [Hiff Hsame].
  assert (Hout : (XiaTauFatigue._dynamics_per_suffix tau_model "minus" bare_nlp
                    0 [] [] [7; 8; 9]).1 = Raise NotImplementedError)
    by (apply Hiff; reflexivity).
  split; [exact Hout | exact (Hsame Hout)].
Defined.

(** ** Bounds and initial guesses *)

Lemma lookup_key_position (ms : list (string * XiaFatigue.t)) (k : nat)
    (key : string) (m : XiaFatigue.t) :
  NoDup ms.*1 -> ms !! k = Some (key, m) ->
  XiaTauFatigue.lookup_key key ms = Ok m.
Proof.
  revert k. induction ms as [| [k0 m0] ms IH]; intros k Hnd Hk; [discriminate |].
  cbn [fmap list_fmap fst] in Hnd. apply NoDup_cons in Hnd as [Hfresh Hnd].
  cbn [XiaTauFatigue.lookup_key]. destruct k as [| k]; cbn in Hk.
  - injection Hk as -> ->. now rewrite decide_True.
  - rewrite decide_False; [now apply (IH k) |].
    intros ->. apply Hfresh.
    apply list_elem_of_fmap. exists (key, m). split; [reflexivity |].
    apply list_elem_of_lookup. eauto.
Qed.

Lemma convert_to_models_key_position (self : XiaTauFatigue.t) (k : nat)
    (key : string) (m : XiaFatigue.t) :
  XiaTauFatigue.models self !! k = Some (key, m) ->
  XiaTauFatigue._convert_to_models_key self k = Ok key.
Proof.
  intros Hk. unfold XiaTauFatigue._convert_to_models_key.
  apply row_Some. now rewrite list_lookup_fmap, Hk.
Qed.

Lemma unique_keys_NoDup (self : XiaTauFatigue.t) :
  unique_keys self = true -> NoDup (XiaTauFatigue.models self).*1.
Proof. unfold unique_keys. apply bool_decide_eq_true. Qed.

Lemma default_bounds_at_position (self : XiaTauFatigue.t) (k : nat)
    (key : string) (m : XiaFatigue.t) (variable_type : VariableType) :
  NoDup (XiaTauFatigue.models self).*1 ->
  XiaTauFatigue.models self !! k = Some (key, m) ->
  XiaTauFatigue.default_bounds self k variable_type
    = Ok (if decide (variable_type = STATES)
          then XiaFatigue.default_bounds m variable_type
          else ([if decide (k = 0%nat) then XiaFatigue.scale m else 0],
                [if decide (k = 1%nat) then XiaFatigue.scale m else 0])).
Proof.
  intros Hu Hk. unfold XiaTauFatigue.default_bounds.
  rewrite (bind_Ok _ _ _ (convert_to_models_key_position self k key m Hk)).
  case_decide; now rewrite (bind_Ok _ _ _ (lookup_key_position _ k key m Hu Hk)).
Qed.

(** C7. State bounds of the composite at position [k] are the bounds of the
    sub-model at [k].  Control bounds are the one-component pair
    [(scale,), (0,)] at position 0 and [(0,), (scale,)] at position 1, with
    [scale] the scale of the sub-model at that position as it is (no sign
    change), and they do not depend on [state_only]. *)
Theorem composite_default_bounds (self : XiaTauFatigue.t) (k : nat)
    (key : string) (m : XiaFatigue.t) :
  unique_keys self = true ->
  XiaTauFatigue.models self !! k = Some (key, m) ->
  XiaTauFatigue.default_bounds self k STATES
    = Ok (XiaFatigue.default_bounds m STATES)
  /\ (k = 0%nat ->
      XiaTauFatigue.default_bounds self k CONTROLS = Ok ([XiaFatigue.scale m], [0]))
  /\ (k = 1%nat ->
      XiaTauFatigue.default_bounds self k CONTROLS = Ok ([0], [XiaFatigue.scale m]))
  /\ (forall (flag : bool) (variable_type : VariableType),
      XiaTauFatigue.default_bounds
        (XiaTauFatigue.Build (XiaTauFatigue.models self) flag) k variable_type
      = XiaTauFatigue.default_bounds self k variable_type).
Proof.
  intros Hu Hk. apply unique_keys_NoDup in Hu.
  split; [| split; [| split]].
  - now rewrite (default_bounds_at_position self k key m STATES Hu Hk).
  - intros ->. now rewrite (default_bounds_at_position self 0 key m CONTROLS Hu Hk).
  - intros ->. now rewrite (default_bounds_at_position self 1 key m CONTROLS Hu Hk).
  - intros flag variable_type. reflexivity.
Qed.

Lemma composite_default_bounds_witness :
  XiaTauFatigue.default_bounds tau_model 1 STATES = Ok ([0; 0; 0], [1; 1; 1])
  /\ XiaTauFatigue.default_bounds tau_model 0 CONTROLS = Ok ([-2 # 1], [0])
  /\ XiaTauFatigue.default_bounds tau_model 1 CONTROLS = Ok ([0], [2]).
Proof.
  assert (Hu : unique_keys tau_model = true) by (vm_compute; reflexivity).
  pose proof (composite_default_bounds tau_model 0 "minus" minus_model Hu eq_refl)
    as (_ & H0 & _).
  pose proof (composite_default_bounds tau_model 1 "plus" plus_model Hu eq_refl)
    as (Hs & _ & H1 & _).
  split; [exact Hs | split; [exact (H0 eq_refl) | exact (H1 eq_refl)]].
Defined.

(** C7, as stated, fails: a composite built with [state_only = True]
    produces the asymmetric control split all the same. *)
Lemma composite_control_bounds_counterexample :
  ~ (XiaTauFatigue.default_bounds tau_model 0 CONTROLS
       = Ok ([XiaFatigue.scale minus_model], [0])
     /\ XiaTauFatigue.default_bounds tau_model 1 CONTROLS
       = Ok ([0], [XiaFatigue.scale plus_model])
     -> XiaTauFatigue.state_only tau_model = false).
Proof.
  intros H. assert (Hflag : XiaTauFatigue.state_only tau_model = false).
  { apply H. split; vm_compute; reflexivity. }
  discriminate Hflag.
Qed.

(** C8. [XiaFatigue.default_bounds] is the box with lower corner (0, 0, 0)
    and upper corner (1, 1, 1) for every variable type; the argument is not
    looked at, so control variables get the same box as state variables. *)
Theorem muscle_default_bounds (self : XiaFatigue.t) (variable_type : VariableType) :
  XiaFatigue.default_bounds self variable_type = ([0; 0; 0], [1; 1; 1])
  /\ XiaFatigue.default_bounds self variable_type
     = XiaFatigue.default_bounds self STATES.
Proof. split; reflexivity. Qed.

(** C8, as stated, fails for control variables: the box returned is neither
    unconstrained (it bounds three components) nor degenerate (no component
    has its upper bound at or below its lower bound). *)
Lemma muscle_control_bounds_counterexample :
  let box := XiaFatigue.default_bounds unit_model CONTROLS in
  ~ ((box.1 = [] /\ box.2 = [])
     \/ exists (i : nat) (l u : Q),
          box.1 !! i = Some l /\ box.2 !! i = Some u /\ u <= l).
Proof.
  cbn. intros [[H _] | (i & l & u & Hl & Hu & Hle)]; [discriminate |].
  destruct i as [| [| [| i]]]; cbn in Hl, Hu; try discriminate;
    injection Hl as <-; injection Hu as <-;
    revert Hle; unfold Qle; cbn; lia.
Qed.

(** C9. The initial guess of a single model is (0, 1, 0), a fully rested
    state whose components sum to 1; the composite, at a position [k] of
    its key range and for any variable type, returns the initial guess of
    the sub-model at [k]. *)
Theorem default_initial_guess_rested :
  (forall self : XiaFatigue.t,
     XiaFatigue.default_initial_guess self = [0; 1; 0]
     /\ exists ma mr mf : Q,
          XiaFatigue.default_initial_guess self = [ma; mr; mf]
          /\ ma + mr + mf == 1)
  /\ (forall (self : XiaTauFatigue.t) (k : nat) (key : string)
             (m : XiaFatigue.t) (variable_type : VariableType),
      unique_keys self = true ->
      XiaTauFatigue.models self !! k = Some (key, m) ->
      XiaTauFatigue.default_initial_guess self k variable_type
        = Ok (XiaFatigue.default_initial_guess m)).
Proof.
  split.
  - intros self. split; [reflexivity |].
    exists 0, 1, 0. split; reflexivity.
  - intros self k key m variable_type Hu Hk. apply unique_keys_NoDup in Hu.
    unfold XiaTauFatigue.default_initial_guess.
    rewrite (bind_Ok _ _ _ (convert_to_models_key_position self k key m Hk)).
    now rewrite (bind_Ok _ _ _ (lookup_key_position _ k key m Hu Hk)).
Qed.

Lemma default_initial_guess_rested_witness :
  XiaTauFatigue.default_initial_guess tau_model 1 STATES
    = Ok (XiaFatigue.default_initial_guess plus_model).
Proof.
  apply (proj2 default_initial_guess_rested tau_model 1%nat "plus" plus_model STATES).
  - vm_compute; reflexivity.
  - reflexivity.
Defined.

(** C10. The composite's initial guess does not look at [variable_type]:
    the result is the same for any two variable types, and at a position
    [k] of the key range it is the three-component state guess of the
    sub-model at [k], for [CONTROLS] as for [STATES]. *)
Theorem composite_initial_guess_ignores_variable_type
    (self : XiaTauFatigue.t) (k : nat) (key : string) (m : XiaFatigue.t)
    (variable_type : VariableType) :
  unique_keys self = true ->
  XiaTauFatigue.models self !! k = Some (key, m) ->
  XiaTauFatigue.default_initial_guess self k variable_type
    = XiaTauFatigue.default_initial_guess self k STATES
  /\ XiaTauFatigue.default_initial_guess self k variable_type
    = XiaTauFatigue.default_initial_guess self k CONTROLS
  /\ exists guess : list Q,
       XiaTauFatigue.default_initial_guess self k variable_type = Ok guess
       /\ guess = XiaFatigue.default_initial_guess m
       /\ length guess = 3%nat.
Proof.
  intros Hu Hk. apply unique_keys_NoDup in Hu.
  repeat split.
  exists (XiaFatigue.default_initial_guess m). repeat split.
  unfold XiaTauFatigue.default_initial_guess.
  rewrite (bind_Ok _ _ _ (convert_to_models_key_position self k key m Hk)).
  now rewrite (bind_Ok _ _ _ (lookup_key_position _ k key m Hu Hk)).
Qed.

Lemma composite_initial_guess_ignores_variable_type_witness :
  XiaTauFatigue.default_initial_guess tau_model 0 CONTROLS
    = XiaTauFatigue.default_initial_guess tau_model 0 STATES
  /\ XiaTauFatigue.default_initial_guess tau_model 0 CONTROLS = Ok [0; 1; 0].
Proof.
  assert (Hu : unique_keys tau_model = true) by (vm_compute; reflexivity).
  pose proof (composite_initial_guess_ignores_variable_type tau_model 0 "minus"
                minus_model CONTROLS Hu eq_refl) as (Hs & _ & guess & Hg & -> & _).
  split; [exact Hs | exact Hg].
Defined.

(** * Further properties of the switched law *)

Lemma transfer_rate_development_bounds (self : XiaFatigue.t) (target_load ma mr : Q) :
  0 <= XiaFatigue.LD self -> 0 <= mr -> ma < target_load ->
  0 <= XiaFatigue.transfer_rate self target_load ma mr
  /\ XiaFatigue.transfer_rate self target_load ma mr
       <= XiaFatigue.LD self * (target_load - ma)
  /\ XiaFatigue.transfer_rate self target_load ma mr <= XiaFatigue.LD self * mr.
Proof.
  intros HLD Hmr Hlt.
  destruct (Qlt_le_dec (target_load - ma) mr) as [Hgt | Hle].
  - rewrite (transfer_rate_ideal _ _ _ _ Hlt Hgt). nra.
  - rewrite (transfer_rate_capped _ _ _ _ Hlt Hle). nra.
Qed.

Lemma transfer_rate_relaxation_bounds (self : XiaFatigue.t) (target_load ma mr : Q) :
  0 <= XiaFatigue.LR self -> target_load <= ma ->
  XiaFatigue.transfer_rate self target_load ma mr <= 0.
Proof.
  intros HLR Hle. rewrite (transfer_rate_relax _ _ _ mr Hle). nra.
Qed.

(** X1. With non-negative rates [LD], [LR] and a non-negative rest fraction,
    the transfer rate has the sign of the gap [target_load - ma]: below the
    target it lies between 0 and both [LD * (target_load - ma)] and
    [LD * mr], at or above the target it is not positive.  In both regimes
    its magnitude is at most [max LD LR] times the magnitude of the gap, so
    it vanishes, without a jump, where the regime switches. *)
Theorem transfer_rate_follows_gap (self : XiaFatigue.t) (target_load ma mr : Q) :
  0 <= XiaFatigue.LD self -> 0 <= XiaFatigue.LR self -> 0 <= mr ->
  let c := XiaFatigue.transfer_rate self target_load ma mr in
  (ma < target_load ->
     0 <= c /\ c <= XiaFatigue.LD self * (target_load - ma)
     /\ c <= XiaFatigue.LD self * mr)
  /\ (target_load <= ma -> c <= 0)
  /\ Qabs c <= Qmax (XiaFatigue.LD self) (XiaFatigue.LR self)
               * Qabs (target_load - ma).
Proof.
  intros HLD HLR Hmr c. split; [| split].
  - intros Hlt. now apply transfer_rate_development_bounds.
  - intros Hle. now apply transfer_rate_relaxation_bounds.
  - pose proof (Q.le_max_l (XiaFatigue.LD self) (XiaFatigue.LR self)) as Hl.
    pose proof (Q.le_max_r (XiaFatigue.LD self) (XiaFatigue.LR self)) as Hr.
    revert Hl Hr. generalize (Qmax (XiaFatigue.LD self) (XiaFatigue.LR self)).
    intros M Hl Hr. subst c.
    destruct (Qlt_le_dec ma target_load) as [Hlt | Hle].
    + destruct (transfer_rate_development_bounds self _ _ mr HLD Hmr Hlt)
        as (H0 & Hgap & _).
      rewrite (Qabs_pos _ H0), (Qabs_pos (target_load - ma)) by lra. nra.
    + rewrite (transfer_rate_relax _ _ _ mr Hle).
      rewrite (Qabs_neg (XiaFatigue.LR self * (target_load - ma))) by nra.
      rewrite (Qabs_neg (target_load - ma)) by lra. nra.
Qed.

Lemma transfer_rate_follows_gap_witness :
  0 <= XiaFatigue.transfer_rate minus_model (1 # 2) (1 # 10) (9 # 10)
  /\ XiaFatigue.transfer_rate minus_model (1 # 2) (1 # 10) (9 # 10)
     <= 10 * ((1 # 2) - (1 # 10)).
Proof.
  assert (H : (1 # 10) < (1 # 2)) by (unfold Qlt; simpl; lia).
  destruct (transfer_rate_follows_gap minus_model (1 # 2) (1 # 10) (9 # 10))
    as (Hdev & _); [unfold Qle; simpl; lia .. |].
  destruct (Hdev H) as (H0 & Hgap & _). split; [exact H0 | exact Hgap].
Defined.

(** X2. With non-negative rates and rest fraction, the transfer rate is
    monotone in the gap [target_load - ma]: a larger gap (a higher target or
    a lower activation) never gives a smaller rate, across the regime
    switch as within each regime. *)
Theorem transfer_rate_monotone (self : XiaFatigue.t)
    (target_load ma target_load' ma' mr : Q) :
  0 <= XiaFatigue.LD self -> 0 <= XiaFatigue.LR self -> 0 <= mr ->
  target_load - ma <= target_load' - ma' ->
  XiaFatigue.transfer_rate self target_load ma mr
    <= XiaFatigue.transfer_rate self target_load' ma' mr.
Proof.
  intros HLD HLR Hmr Hgap.
  destruct (Qlt_le_dec ma target_load) as [Hlt | Hle].
  - assert (Hlt' : ma' < target_load') by lra.
    rewrite (transfer_rate_min _ _ _ _ Hlt), (transfer_rate_min _ _ _ _ Hlt').
    pose proof (Q.min_le_compat_l _ _ mr Hgap) as Hmin.
    revert Hmin.
    generalize (Qmin mr (target_load - ma)) (Qmin mr (target_load' - ma')).
    intros a b Hab. nra.
  - destruct (Qlt_le_dec ma' target_load') as [Hlt' | Hle'].
    + pose proof (transfer_rate_relaxation_bounds self _ _ mr HLR Hle).
      destruct (transfer_rate_development_bounds self _ _ mr HLD Hmr Hlt')
        as (H0 & _).
      lra.
    + rewrite (transfer_rate_relax _ _ _ mr Hle),
        (transfer_rate_relax _ _ _ mr Hle').
      nra.
Qed.

Lemma transfer_rate_monotone_witness :
  XiaFatigue.transfer_rate minus_model (3 # 10) (1 # 2) (1 # 2)
    <= XiaFatigue.transfer_rate minus_model (7 # 10) (1 # 2) (1 # 2).
Proof.
  apply (transfer_rate_monotone minus_model (3 # 10) (1 # 2) (7 # 10) (1 # 2) (1 # 2));
    unfold Qle; simpl; lia.
Defined.

Lemma transfer_rate_scaled (self : XiaFatigue.t) (k target_load ma mr : Q) :
  0 < k ->
  XiaFatigue.transfer_rate self (k * target_load) (k * ma) (k * mr)
    == k * XiaFatigue.transfer_rate self target_load ma mr.
Proof.
  intros Hk.
  destruct (Qlt_le_dec ma target_load) as [Hlt | Hle].
  - assert (Hlt' : k * ma < k * target_load) by nra.
    destruct (Qlt_le_dec (target_load - ma) mr) as [Hgt | Hcap].
    + rewrite (transfer_rate_ideal self _ _ _ Hlt Hgt).
      rewrite (transfer_rate_ideal self _ _ (k * mr) Hlt') by nra. ring.
    + rewrite (transfer_rate_capped self _ _ _ Hlt Hcap).
      rewrite (transfer_rate_capped self _ _ (k * mr) Hlt') by nra. ring.
  - rewrite (transfer_rate_relax self _ _ mr Hle).
    rewrite (transfer_rate_relax self (k * target_load) (k * ma) (k * mr)) by nra.
    ring.
Qed.

(** X3. The law is positively homogeneous: multiplying the target load and
    the three state values by the same [k > 0] multiplies the three
    derivatives by [k]; the comparisons that select the regime are not
    affected. *)
Theorem apply_dynamics_homogeneous
    (self : XiaFatigue.t) (k target_load ma mr mf : Q) :
  0 < k ->
  exists a b c a' b' c' : Q,
    XiaFatigue.apply_dynamics self target_load [ma; mr; mf] = Ok [a; b; c]
    /\ XiaFatigue.apply_dynamics self (k * target_load) [k * ma; k * mr; k * mf]
       = Ok [a'; b'; c']
    /\ a' == k * a /\ b' == k * b /\ c' == k * c.
Proof.
  intros Hk. do 6 eexists. split; [reflexivity |]. split; [reflexivity |].
  cbv zeta. rewrite (transfer_rate_scaled self k target_load ma mr Hk).
  repeat split; ring.
Qed.

Lemma apply_dynamics_homogeneous_witness :
  exists a b c a' b' c' : Q,
    XiaFatigue.apply_dynamics plus_model (1 # 2) [1 # 10; 9 # 10; 0] = Ok [a; b; c]
    /\ XiaFatigue.apply_dynamics plus_model (2 * (1 # 2))
         [2 * (1 # 10); 2 * (9 # 10); 2 * 0] = Ok [a'; b'; c']
    /\ a' == 2 * a /\ b' == 2 * b /\ c' == 2 * c.
Proof.
  apply (apply_dynamics_homogeneous plus_model 2 (1 # 2) (1 # 10) (9 # 10) 0).
  unfold Qlt; simpl; lia.
Defined.

(** X4. With non-negative parameters the derivatives point inwards on the
    faces of the non-negative orthant: [ma_dot >= 0] where [ma] is 0 (for a
    non-negative target and rest fraction), [mr_dot >= 0] where [mr] is 0
    (for a non-negative fatigued fraction), and [mf_dot >= 0] where [mf] is
    0 (for a non-negative activation). *)
Theorem apply_dynamics_inward (self : XiaFatigue.t) (target_load ma mr mf : Q) :
  0 <= XiaFatigue.LD self -> 0 <= XiaFatigue.LR self ->
  0 <= XiaFatigue.F self -> 0 <= XiaFatigue.R self ->
  exists ma_dot mr_dot mf_dot : Q,
    XiaFatigue.apply_dynamics self target_load [ma; mr; mf]
      = Ok [ma_dot; mr_dot; mf_dot]
    /\ (ma == 0 -> 0 <= target_load -> 0 <= mr -> 0 <= ma_dot)
    /\ (mr == 0 -> 0 <= mf -> 0 <= mr_dot)
    /\ (mf == 0 -> 0 <= ma -> 0 <= mf_dot).
Proof.
  intros HLD HLR HF HR. do 3 eexists. split; [reflexivity |]. cbv zeta.
  split; [| split].
  - intros Hma Htl Hmr.
    destruct (Qlt_le_dec ma target_load) as [Hlt | Hle].
    + destruct (transfer_rate_development_bounds self _ _ mr HLD Hmr Hlt)
        as (H0 & _).
      nra.
    + rewrite (transfer_rate_relax self _ _ mr Hle). nra.
  - intros Hmr Hmf.
    destruct (Qlt_le_dec ma target_load) as [Hlt | Hle].
    + rewrite (transfer_rate_capped self _ _ mr Hlt) by lra. nra.
    + rewrite (transfer_rate_relax self _ _ mr Hle). nra.
  - intros Hmf Hma. nra.
Qed.

Lemma apply_dynamics_inward_witness :
  exists ma_dot mr_dot mf_dot : Q,
    XiaFatigue.apply_dynamics minus_model (1 # 2) [1 # 2; 0; 1 # 2]
      = Ok [ma_dot; mr_dot; mf_dot]
    /\ 0 <= mr_dot.
Proof.
  destruct (apply_dynamics_inward minus_model (1 # 2) (1 # 2) 0 (1 # 2))
    as (a & b & c & Hrun & _ & Hmr & _); [unfold Qle; simpl; lia .. |].
  exists a, b, c. split; [exact Hrun |].
  apply Hmr; [reflexivity | unfold Qle; simpl; lia].
Defined.

(** X5. [apply_dynamics] unpacks exactly three state values: with three it
    returns a column of three rows, with any other number (none included)
    it raises the unpacking error. *)
Theorem apply_dynamics_arity
    (self : XiaFatigue.t) (target_load : Q) (states : list Q) :
  (length states = 3%nat ->
     exists rows : list Q,
       XiaFatigue.apply_dynamics self target_load states = Ok rows
       /\ length rows = 3%nat)
  /\ (length states <> 3%nat ->
     XiaFatigue.apply_dynamics self target_load states = Raise ValueError).
Proof.
  destruct states as [| ma [| mr [| mf [| x rest]]]]; cbn [length];
    (split; [intros Hlen; try discriminate Hlen | intros Hlen; try reflexivity]).
  - eexists. split; reflexivity.
  - now destruct Hlen.
Qed.

Lemma apply_dynamics_arity_witness :
  XiaFatigue.apply_dynamics unit_model (1 # 2) [] = Raise ValueError
  /\ XiaFatigue.apply_dynamics unit_model (1 # 2) [0; 1; 0; 0] = Raise ValueError.
Proof.
  split.
  - apply (apply_dynamics_arity unit_model (1 # 2) []). simpl. lia.
  - apply (apply_dynamics_arity unit_model (1 # 2) [0; 1; 0; 0]). simpl. lia.
Defined.

(** * Further properties of the per-direction dynamics *)

Lemma frames_lift {A : Type} (rows : list nat) (r : result A) : frames rows (lift r).
Proof. intros dxdt. split; [reflexivity | intros; reflexivity]. Qed.

Lemma frames_bind {A B : Type} (rows : list nat) (m : Dx A) (f : A -> Dx B) :
  frames rows m -> (forall a, frames rows (f a)) -> frames rows (m ≫= f).
Proof.
  intros Hm Hf dxdt. unfold mbind, Dx_bind.
  destruct (Hm dxdt) as [Hlen Hrest].
  destruct (m dxdt) as [[a | e] d']; cbn [snd] in *.
  - destruct (Hf a d') as [Hlen' Hrest']. split.
    + now rewrite Hlen'.
    + intros j Hj. now rewrite Hrest', Hrest.
  - split; assumption.
Qed.

Lemma frames_lift_bind {A B : Type} (rows : list nat) (r : result A) (f : A -> Dx B) :
  (forall a, r = Ok a -> frames rows (f a)) -> frames rows (lift r ≫= f).
Proof.
  intros Hf dxdt. rewrite bind_lift. destruct r as [a | e].
  - now apply Hf.
  - split; [reflexivity | intros; reflexivity].
Qed.

Lemma frames_setitem (rows : list nat) (r : nat) (v : Q) :
  r ∈ rows -> frames rows (setitem r v).
Proof.
  intros Hr dxdt. unfold setitem. case_decide; cbn [snd].
  - split; [apply length_insert |].
    intros j Hj. apply list_lookup_insert_ne. intros ->. now apply Hj.
  - split; [reflexivity | intros; reflexivity].
Qed.

Lemma frames_return_dxdt (rows : list nat) : frames rows return_dxdt.
Proof. intros dxdt. split; [reflexivity | intros; reflexivity]. Qed.

Lemma frames_for_each {A : Type} (rows : list nat) (body : A -> Dx unit) (l : list A) :
  Forall (fun x => frames rows (body x)) l -> frames rows (for_each body l).
Proof.
  induction 1 as [| x l Hx _ IH]; cbn [for_each].
  - intros dxdt. split; [reflexivity | intros; reflexivity].
  - apply frames_bind; [exact Hx | intros _; exact IH].
Qed.

Lemma tau_rows_elem (suffix : string) (nlp : NonLinearProgram.t) (index : nat)
    (s : string) (var : OptimizationVariable.t) (r : nat) :
  s ∈ ["ma"; "mr"; "mf"]%string ->
  NonLinearProgram.states nlp !! ("tau_" +:+ suffix +:+ "_" +:+ s) = Some var ->
  OptimizationVariable.index var !! index = Some r ->
  r ∈ tau_rows suffix nlp index.
Proof.
  intros Hs Hvar Hr. unfold tau_rows. apply list_elem_of_omap.
  exists s. split; [exact Hs |]. now rewrite Hvar.
Qed.

Lemma getitem_Ok (c : gmap string OptimizationVariable.t) (name : string)
    (var : OptimizationVariable.t) :
  getitem c name = Ok var -> c !! name = Some var.
Proof. unfold getitem. destruct (c !! name); congruence. Qed.

Lemma row_Ok {A : Type} (v : list A) (i : nat) (x : A) :
  row v i = Ok x -> v !! i = Some x.
Proof. unfold row. destruct (v !! i); congruence. Qed.

Lemma tau_write_back_frames (suffix : string) (nlp : NonLinearProgram.t)
    (index : nat) (current_dxdt : list Q) (i : nat) (s : string) :
  s ∈ ["ma"; "mr"; "mf"]%string ->
  frames (tau_rows suffix nlp index)
    (XiaTauFatigue.write_back suffix nlp index current_dxdt (i, s)).
Proof.
  intros Hs. unfold XiaTauFatigue.write_back. cbn [fst snd].
  apply frames_lift_bind. intros v _.
  apply frames_lift_bind. intros var Hvar.
  apply frames_lift_bind. intros r Hr.
  apply frames_setitem.
  exact (tau_rows_elem _ _ _ _ _ _ Hs (getitem_Ok _ _ _ Hvar) (row_Ok _ _ _ Hr)).
Qed.

(** X6. Whatever its inputs and however it ends, the per-direction dynamics
    keeps the length of the derivative vector and changes no row other than
    the rows of this side's [ma], [mr], [mf] channels at this index. *)
Theorem tau_dynamics_frame (self : XiaTauFatigue.t) (suffix : string)
    (nlp : NonLinearProgram.t) (index : nat) (states controls dxdt : list Q) :
  let out :=
    XiaTauFatigue._dynamics_per_suffix self suffix nlp index states controls dxdt in
  length out.2 = length dxdt
  /\ forall j : nat, j ∉ tau_rows suffix nlp index -> out.2 !! j = dxdt !! j.
Proof.
  revert dxdt. change (frames (tau_rows suffix nlp index)
    (XiaTauFatigue._dynamics_per_suffix self suffix nlp index states controls)).
  unfold XiaTauFatigue._dynamics_per_suffix.
  do 5 (apply frames_lift_bind; intros ? ?).
  apply frames_bind; [| intros _; apply frames_return_dxdt].
  apply frames_for_each.
  match goal with H : XiaFatigue.suffix (Some STATES) = Ok ?l |- _ =>
    cbn in H; injection H as <- end.
  unfold enumerate. cbn [length seq zip zip_with].
  repeat constructor; apply tau_write_back_frames; set_solver.
Qed.

Lemma tau_dynamics_frame_witness :
  (XiaTauFatigue._dynamics_per_suffix tau_model "minus" tau_nlp 0
     [1 # 2; 1 # 2; 0; 0; 1; 0] [-1 # 1; 0] [7; 8; 9; 10; 11; 12]).2 !! 3%nat
  = Some 10.
Proof.
  apply (tau_dynamics_frame tau_model "minus" tau_nlp 0
           [1 # 2; 1 # 2; 0; 0; 1; 0] [-1 # 1; 0] [7; 8; 9; 10; 11; 12]).
  apply (bool_decide_unpack _). vm_compute. exact I.
Defined.

Lemma mapM_row_lookup {A : Type} (cx : list A) (idx : list nat) (col : list A)
    (i : nat) (x : A) :
  mapM (row cx) idx = Ok col -> col !! i = Some x ->
  exists r : nat, idx !! i = Some r /\ cx !! r = Some x.
Proof.
  revert col i. induction idx as [| j idx IH]; intros col i Hcol Hx.
  - cbn in Hcol. injection Hcol as <-. discriminate Hx.
  - cbn [mapM] in Hcol.
    destruct (row cx j) as [y |] eqn:Hj; [| discriminate Hcol].
    cbn [mbind result_bind] in Hcol.
    destruct (mapM (row cx) idx) as [k |] eqn:Hk; [| discriminate Hcol].
    cbn in Hcol. injection Hcol as <-.
    destruct i as [| i]; cbn in Hx |- *.
    + injection Hx as <-. exists j. split; [reflexivity | now apply row_Ok].
    + now apply (IH k).
Qed.

Lemma tau_fatigue_of_inv (suffix : string) (nlp : NonLinearProgram.t)
    (index : nat) (states : list Q) (s : string) (x : Q) :
  XiaTauFatigue.fatigue_of suffix nlp index states s = Ok x ->
  exists (var : OptimizationVariable.t) (r : nat),
    NonLinearProgram.states nlp !! ("tau_" +:+ suffix +:+ "_" +:+ s) = Some var
    /\ (DynamicsFunctions.get var states ≫= fun col => row col index) = Ok x
    /\ OptimizationVariable.index var !! index = Some r
    /\ states !! r = Some x.
Proof.
  unfold XiaTauFatigue.fatigue_of. intros H.
  destruct (getitem _ _) as [var |] eqn:Hvar; [| discriminate H].
  cbn [mbind result_bind] in H.
  destruct (DynamicsFunctions.get var states) as [col |] eqn:Hcol;
    [| discriminate H].
  cbn [mbind result_bind] in H.
  destruct (mapM_row_lookup _ _ _ _ _ Hcol (row_Ok _ _ _ H)) as (r & Hr & Hx).
  exists var, r. split; [now apply getitem_Ok |].
  split; [| split; assumption].
  now rewrite Hcol.
Qed.

Lemma tau_rows_resolved (suffix : string) (nlp : NonLinearProgram.t) (index : nat)
    (vma vmr vmf : OptimizationVariable.t) (ra rr rf : nat) :
  NonLinearProgram.states nlp !! ("tau_" +:+ suffix +:+ "_" +:+ "ma") = Some vma ->
  NonLinearProgram.states nlp !! ("tau_" +:+ suffix +:+ "_" +:+ "mr") = Some vmr ->
  NonLinearProgram.states nlp !! ("tau_" +:+ suffix +:+ "_" +:+ "mf") = Some vmf ->
  OptimizationVariable.index vma !! index = Some ra ->
  OptimizationVariable.index vmr !! index = Some rr ->
  OptimizationVariable.index vmf !! index = Some rf ->
  tau_rows suffix nlp index = [ra; rr; rf].
Proof.
  intros Ha Hr Hf Hra Hrr Hrf. unfold tau_rows. cbn [omap list_omap].
  rewrite Ha, Hr, Hf. cbn [mbind option_bind]. now rewrite Hra, Hrr, Hrf.
Qed.

Lemma tau_dynamics_resolved (self : XiaTauFatigue.t) (suffix : string)
    (var : XiaFatigue.t) (nlp : NonLinearProgram.t) (index : nat)
    (states controls dxdt : list Q) (tl ma mr mf : Q) :
  XiaTauFatigue.lookup_key suffix (XiaTauFatigue.models self) = Ok var ->
  XiaTauFatigue._get_target_load self var suffix nlp controls index = Ok tl ->
  XiaTauFatigue.fatigue_of suffix nlp index states "ma" = Ok ma ->
  XiaTauFatigue.fatigue_of suffix nlp index states "mr" = Ok mr ->
  XiaTauFatigue.fatigue_of suffix nlp index states "mf" = Ok mf ->
  (length states <= length dxdt)%nat ->
  exists (ra rr rf : nat) (ma_dot mr_dot mf_dot : Q),
    tau_rows suffix nlp index = [ra; rr; rf]
    /\ states !! ra = Some ma /\ states !! rr = Some mr /\ states !! rf = Some mf
    /\ XiaFatigue.apply_dynamics var tl [ma; mr; mf] = Ok [ma_dot; mr_dot; mf_dot]
    /\ XiaTauFatigue._dynamics_per_suffix self suffix nlp index states controls dxdt
       = (Ok (<[rf:=mf_dot]> (<[rr:=mr_dot]> (<[ra:=ma_dot]> dxdt))),
          <[rf:=mf_dot]> (<[rr:=mr_dot]> (<[ra:=ma_dot]> dxdt))).
Proof.
  intros Hvar Htl Hma Hmr Hmf Hlen.
  destruct (tau_fatigue_of_inv _ _ _ _ _ _ Hma) as (vma & ra & Hka & Hxa & Hra & Hsa).
  destruct (tau_fatigue_of_inv _ _ _ _ _ _ Hmr) as (vmr & rr & Hkr & Hxr & Hrr & Hsr).
  destruct (tau_fatigue_of_inv _ _ _ _ _ _ Hmf) as (vmf & rf & Hkf & Hxf & Hrf & Hsf).
  assert (Hla : (ra < length dxdt)%nat)
    by (apply lookup_lt_Some in Hsa; lia).
  assert (Hlr : (rr < length dxdt)%nat)
    by (apply lookup_lt_Some in Hsr; lia).
  assert (Hlf : (rf < length dxdt)%nat)
    by (apply lookup_lt_Some in Hsf; lia).
  destruct (tau_dynamics_writes self suffix var nlp index states controls dxdt tl
              vma vmr vmf ma mr mf ra rr rf Hvar Htl Hka Hkr Hkf Hxa Hxr Hxf
              Hra Hrr Hrf Hla Hlr Hlf) as (Happ & Hrun & _).
  exists ra, rr, rf. do 3 eexists.
  split; [exact (tau_rows_resolved _ _ _ _ _ _ _ _ _ Hka Hkr Hkf Hra Hrr Hrf) |].
  repeat (split; [assumption |]).
  split; [exact Happ | exact Hrun].
Qed.

(** X7. The per-direction dynamics completes whenever the key is
    configured, the target load and the three state values resolve, and the
    derivative vector is at least as long as the state vector.  It then
    returns the updated vector, in which the three rows of
    [apply_dynamics] have been written, in order, at the rows the three
    state values were read from. *)
Theorem tau_dynamics_completes (self : XiaTauFatigue.t) (suffix : string)
    (var : XiaFatigue.t) (nlp : NonLinearProgram.t) (index : nat)
    (states controls dxdt : list Q) (tl ma mr mf : Q) :
  XiaTauFatigue.lookup_key suffix (XiaTauFatigue.models self) = Ok var ->
  XiaTauFatigue._get_target_load self var suffix nlp controls index = Ok tl ->
  XiaTauFatigue.fatigue_of suffix nlp index states "ma" = Ok ma ->
  XiaTauFatigue.fatigue_of suffix nlp index states "mr" = Ok mr ->
  XiaTauFatigue.fatigue_of suffix nlp index states "mf" = Ok mf ->
  (length states <= length dxdt)%nat ->
  exists (ra rr rf : nat) (ma_dot mr_dot mf_dot : Q),
    tau_rows suffix nlp index = [ra; rr; rf]
    /\ states !! ra = Some ma /\ states !! rr = Some mr /\ states !! rf = Some mf
    /\ XiaFatigue.apply_dynamics var tl [ma; mr; mf] = Ok [ma_dot; mr_dot; mf_dot]
    /\ XiaTauFatigue._dynamics_per_suffix self suffix nlp index states controls dxdt
       = (Ok (<[rf:=mf_dot]> (<[rr:=mr_dot]> (<[ra:=ma_dot]> dxdt))),
          <[rf:=mf_dot]> (<[rr:=mr_dot]> (<[ra:=ma_dot]> dxdt))).
Proof.
  intros Hvar Htl Hma Hmr Hmf Hlen.
  exact (tau_dynamics_resolved self suffix var nlp index states controls dxdt
           tl ma mr mf Hvar Htl Hma Hmr Hmf Hlen).
Qed.

Lemma tau_dynamics_completes_witness :
  exists (ra rr rf : nat) (ma_dot mr_dot mf_dot : Q),
    tau_rows "plus" tau_nlp 0 = [ra; rr; rf]
    /\ [0; 1; 0; 1 # 2; 1 # 2; 0] !! ra = Some (1 # 2)
    /\ [0; 1; 0; 1 # 2; 1 # 2; 0] !! rr = Some (1 # 2)
    /\ [0; 1; 0; 1 # 2; 1 # 2; 0] !! rf = Some 0
    /\ XiaFatigue.apply_dynamics plus_model ((3 # 5) / 2) [1 # 2; 1 # 2; 0]
       = Ok [ma_dot; mr_dot; mf_dot]
    /\ XiaTauFatigue._dynamics_per_suffix tau_model "plus" tau_nlp 0
         [0; 1; 0; 1 # 2; 1 # 2; 0] [0; 3 # 5] [7; 8; 9; 10; 11; 12]
       = (Ok (<[rf:=mf_dot]> (<[rr:=mr_dot]> (<[ra:=ma_dot]> [7; 8; 9; 10; 11; 12]))),
          <[rf:=mf_dot]> (<[rr:=mr_dot]> (<[ra:=ma_dot]> [7; 8; 9; 10; 11; 12]))).
Proof.
  apply (tau_dynamics_completes tau_model "plus" plus_model tau_nlp 0
           [0; 1; 0; 1 # 2; 1 # 2; 0] [0; 3 # 5] [7; 8; 9; 10; 11; 12]
           ((3 # 5) / 2) (1 # 2) (1 # 2) 0);
    first [vm_compute; reflexivity | simpl; lia].
Defined.

Lemma lookup_key_unknown (key : string) (ms : list (string * XiaFatigue.t)) :
  key ∉ ms.*1 -> XiaTauFatigue.lookup_key key ms = Raise KeyError.
Proof.
  induction ms as [| [k m] ms IH]; intros Hk; [reflexivity |].
  cbn [XiaTauFatigue.lookup_key]. cbn in Hk.
  apply not_elem_of_cons in Hk as [Hne Hk].
  rewrite decide_False by congruence. now apply IH.
Qed.

(** X8. A key that is not configured is rejected first: the per-direction
    dynamics raises the key error and leaves the derivative vector as it
    was, whatever the control collection holds (also when "tau" is missing,
    so that the unsupported-control error is not reached). *)
Theorem tau_dynamics_unknown_key (self : XiaTauFatigue.t) (suffix : string)
    (nlp : NonLinearProgram.t) (index : nat) (states controls dxdt : list Q) :
  suffix ∉ (XiaTauFatigue.models self).*1 ->
  XiaTauFatigue._dynamics_per_suffix self suffix nlp index states controls dxdt
    = (Raise KeyError, dxdt).
Proof.
  intros Hk. unfold XiaTauFatigue._dynamics_per_suffix.
  now rewrite bind_lift, (lookup_key_unknown _ _ Hk).
Qed.

Lemma tau_dynamics_unknown_key_witness :
  XiaTauFatigue._dynamics_per_suffix tau_model "both" bare_nlp 0 [] [] [7; 8; 9]
  = (Raise KeyError, [7; 8; 9]).
Proof.
  apply (tau_dynamics_unknown_key tau_model "both" bare_nlp 0 [] [] [7; 8; 9]).
  apply (bool_decide_unpack _). vm_compute. exact I.
Defined.

(** X9. The per-direction path tests for the channel "tau" but reads the
    channel "tau_<suffix>": for a configured key, with "tau" present and
    "tau_<suffix>" missing, the target-load lookup and the dynamics raise
    the key error, and the derivative vector is as it was. *)
Theorem tau_dynamics_direction_channel_missing (self : XiaTauFatigue.t)
    (suffix : string) (var : XiaFatigue.t) (nlp : NonLinearProgram.t)
    (index : nat) (states controls dxdt : list Q) :
  XiaTauFatigue.lookup_key suffix (XiaTauFatigue.models self) = Ok var ->
  is_Some (NonLinearProgram.controls nlp !! "tau") ->
  NonLinearProgram.controls nlp !! ("tau_" +:+ suffix) = None ->
  XiaTauFatigue._get_target_load self var suffix nlp controls index = Raise KeyError
  /\ XiaTauFatigue._dynamics_per_suffix self suffix nlp index states controls dxdt
     = (Raise KeyError, dxdt).
Proof.
  intros Hvar Htau Hchan.
  assert (Htl : XiaTauFatigue._get_target_load self var suffix nlp controls index
                = Raise KeyError).
  { unfold XiaTauFatigue._get_target_load.
    apply contains_true in Htau. rewrite Htau. cbn [negb].
    unfold getitem. now rewrite Hchan. }
  split; [exact Htl |].
  unfold XiaTauFatigue._dynamics_per_suffix.
  rewrite bind_lift, Hvar. now rewrite bind_lift, Htl.
Qed.

Lemma tau_dynamics_direction_channel_missing_witness :
  XiaTauFatigue._dynamics_per_suffix tau_model "minus"
    (NonLinearProgram.Build (NonLinearProgram.states tau_nlp)
       (<["tau" := channel [0%nat]]> ∅))
    0 [1 # 2; 1 # 2; 0] [3 # 10] [7; 8; 9]
  = (Raise KeyError, [7; 8; 9]).
Proof.
  apply (tau_dynamics_direction_channel_missing tau_model "minus" minus_model
           (NonLinearProgram.Build (NonLinearProgram.states tau_nlp)
              (<["tau" := channel [0%nat]]> ∅))
           0 [1 # 2; 1 # 2; 0] [3 # 10] [7; 8; 9]).
  - reflexivity.
  - apply (bool_decide_unpack _). vm_compute. exact I.
  - vm_compute. reflexivity.
Defined.

(** X10. When the derivative vector is at least as long as the state vector,
    the per-direction dynamics is all or nothing: either it raises and the
    derivative vector is exactly as it was, or it completes and returns the
    updated vector.  No error leaves the vector partly written. *)
Theorem tau_dynamics_all_or_nothing (self : XiaTauFatigue.t) (suffix : string)
    (nlp : NonLinearProgram.t) (index : nat) (states controls dxdt : list Q) :
  (length states <= length dxdt)%nat ->
  (exists e : exn,
     XiaTauFatigue._dynamics_per_suffix self suffix nlp index states controls dxdt
       = (Raise e, dxdt))
  \/ (exists out : list Q,
     XiaTauFatigue._dynamics_per_suffix self suffix nlp index states controls dxdt
       = (Ok out, out)).
Proof.
  intros Hlen.
  destruct (XiaTauFatigue.lookup_key suffix (XiaTauFatigue.models self))
    as [var | e] eqn:Hvar.
  2: { left. exists e. unfold XiaTauFatigue._dynamics_per_suffix.
       now rewrite bind_lift, Hvar. }
  destruct (XiaTauFatigue._get_target_load self var suffix nlp controls index)
    as [tl | e] eqn:Htl.
  2: { left. exists e. unfold XiaTauFatigue._dynamics_per_suffix.
       rewrite bind_lift, Hvar. now rewrite bind_lift, Htl. }
  destruct (XiaTauFatigue.fatigue_of suffix nlp index states "ma") as [ma | e] eqn:Hma.
  2: { left. exists e. unfold XiaTauFatigue._dynamics_per_suffix.
       rewrite bind_lift, Hvar. rewrite bind_lift, Htl. rewrite bind_lift.
       cbn [XiaFatigue.suffix]. rewrite decide_True by reflexivity.
       cbn [mbind result_bind mapM]. now rewrite Hma. }
  destruct (XiaTauFatigue.fatigue_of suffix nlp index states "mr") as [mr | e] eqn:Hmr.
  2: { left. exists e. unfold XiaTauFatigue._dynamics_per_suffix.
       rewrite bind_lift, Hvar. rewrite bind_lift, Htl. rewrite bind_lift.
       cbn [XiaFatigue.suffix]. rewrite decide_True by reflexivity.
       cbn [mbind result_bind mapM]. now rewrite Hma, Hmr. }
  destruct (XiaTauFatigue.fatigue_of suffix nlp index states "mf") as [mf | e] eqn:Hmf.
  2: { left. exists e. unfold XiaTauFatigue._dynamics_per_suffix.
       rewrite bind_lift, Hvar. rewrite bind_lift, Htl. rewrite bind_lift.
       cbn [XiaFatigue.suffix]. rewrite decide_True by reflexivity.
       cbn [mbind result_bind mapM]. now rewrite Hma, Hmr, Hmf. }
  right.
  destruct (tau_dynamics_resolved self suffix var nlp index states controls dxdt
              tl ma mr mf Hvar Htl Hma Hmr Hmf Hlen)
    as (ra & rr & rf & da & dr & df & _ & _ & _ & _ & _ & Hrun).
  eexists. exact Hrun.
Qed.

Lemma tau_dynamics_all_or_nothing_witness :
  (exists e : exn,
     XiaTauFatigue._dynamics_per_suffix tau_model "minus" tau_nlp 7
       [1 # 2; 1 # 2; 0] [3 # 10] [7; 8; 9] = (Raise e, [7; 8; 9]))
  \/ (exists out : list Q,
     XiaTauFatigue._dynamics_per_suffix tau_model "minus" tau_nlp 7
       [1 # 2; 1 # 2; 0] [3 # 10] [7; 8; 9] = (Ok out, out)).
Proof.
  apply (tau_dynamics_all_or_nothing tau_model "minus" tau_nlp 7
           [1 # 2; 1 # 2; 0] [3 # 10] [7; 8; 9]).
  simpl. lia.
Defined.







(** * Further properties of the muscle path *)

(** X13. [XiaFatigue.dynamics] ends in the error of the first lookup that
    fails, and in [TypeError] when the target load and the three state
    values all resolve; in each case the derivative vector is as it was. *)
Theorem muscle_dynamics_error (self : XiaFatigue.t) (nlp : NonLinearProgram.t)
    (index : nat) (states controls dxdt : list Q) :
  (forall e : exn,
     XiaFatigue._get_target_load self nlp controls index = Raise e ->
     XiaFatigue.dynamics self nlp index states controls dxdt = (Raise e, dxdt))
  /\ (forall tl ma mr mf : Q,
     XiaFatigue._get_target_load self nlp controls index = Ok tl ->
     XiaFatigue.fatigue_of nlp index states "ma" = Ok ma ->
     XiaFatigue.fatigue_of nlp index states "mr" = Ok mr ->
     XiaFatigue.fatigue_of nlp index states "mf" = Ok mf ->
     XiaFatigue.dynamics self nlp index states controls dxdt
       = (Raise TypeError, dxdt)).
Proof.
  split.
  - intros e He. unfold XiaFatigue.dynamics. now rewrite bind_lift, He.
  - intros tl ma mr mf Htl Hma Hmr Hmf. unfold XiaFatigue.dynamics.
    assert (Hgather :
      XiaFatigue.suffix (Some STATES)
        ≫= mapM (XiaFatigue.fatigue_of nlp index states)
      = Ok [ma; mr; mf]).
    { cbn [XiaFatigue.suffix]. rewrite decide_True by reflexivity.
      cbn [mbind result_bind mapM]. now rewrite Hma, Hmr, Hmf. }
    rewrite bind_lift, Htl. rewrite bind_lift, Hgather.
    now rewrite !bind_lift.
Qed.

Lemma muscle_dynamics_error_witness :
  XiaFatigue.dynamics scaled_model muscle_nlp 0 [1 # 2; 1 # 2; 0] [3 # 10] [7; 8; 9]
    = (Raise TypeError, [7; 8; 9])
  /\ XiaFatigue.dynamics scaled_model muscle_nlp 4 [1 # 2; 1 # 2; 0] [3 # 10] [7; 8; 9]
    = (Raise IndexError, [7; 8; 9]).
Proof.
  split.
  - apply (proj2 (muscle_dynamics_error scaled_model muscle_nlp 0
                    [1 # 2; 1 # 2; 0] [3 # 10] [7; 8; 9])
             (3 # 10) (1 # 2) (1 # 2) 0); vm_compute; reflexivity.
  - apply (proj1 (muscle_dynamics_error scaled_model muscle_nlp 4
                    [1 # 2; 1 # 2; 0] [3 # 10] [7; 8; 9])).
    vm_compute. reflexivity.
Defined.

(** * Further properties of the bounds *)

(** For a composite built by the constructor, the control box at
    position 0 is [scale of minus, 0] and the one at position 1 is
    [0, scale of plus]: the first is a proper interval (lower bound not
    above the upper bound) exactly when the minus model's scale is not
    positive, the second exactly when the plus model's scale is not
    negative. *)
Lemma control_box_orientation (minus plus : XiaFatigue.t) (flag : bool) :
  exists l0 u0 l1 u1 : Q,
    XiaTauFatigue.default_bounds (XiaTauFatigue.__init__ minus plus flag) 0 CONTROLS
      = Ok ([l0], [u0])
    /\ XiaTauFatigue.default_bounds (XiaTauFatigue.__init__ minus plus flag) 1 CONTROLS
      = Ok ([l1], [u1])
    /\ (l0 <= u0 <-> XiaFatigue.scale minus <= 0)
    /\ (l1 <= u1 <-> 0 <= XiaFatigue.scale plus).
Proof.
  do 4 eexists. split; [reflexivity |]. split; [reflexivity |].
  split; reflexivity.
Qed.





(** X15. At a position of the key range the composite's initial guess lies
    inside its state bounds, component by component, and has one entry per
    state label; it has these three entries for control variables too,
    where the bounds have a single entry. *)
Theorem initial_guess_and_bounds_shapes (self : XiaTauFatigue.t) (k : nat)
    (key : string) (m : XiaFatigue.t) (variable_type : VariableType) :
  unique_keys self = true ->
  XiaTauFatigue.models self !! k = Some (key, m) ->
  exists (guess lower upper cl cu : list Q) (labels : list string),
    XiaTauFatigue.default_initial_guess self k variable_type = Ok guess
    /\ XiaTauFatigue.default_bounds self k STATES = Ok (lower, upper)
    /\ XiaTauFatigue.default_bounds self k CONTROLS = Ok (cl, cu)
    /\ XiaFatigue.suffix (Some STATES) = Ok labels
    /\ Forall2 Qle lower guess /\ Forall2 Qle guess upper
    /\ length guess = length labels
    /\ length cl = 1%nat /\ length cu = 1%nat.
Proof.
  intros Hu Hk. apply unique_keys_NoDup in Hu.
  exists (XiaFatigue.default_initial_guess m).
  exists [0; 0; 0], [1; 1; 1].
  exists [if decide (k = 0%nat) then XiaFatigue.scale m else 0].
  exists [if decide (k = 1%nat) then XiaFatigue.scale m else 0].
  exists ["ma"; "mr"; "mf"]%string.
  split.
  { unfold XiaTauFatigue.default_initial_guess.
    rewrite (bind_Ok _ _ _ (convert_to_models_key_position self k key m Hk)).
    now rewrite (bind_Ok _ _ _ (lookup_key_position _ k key m Hu Hk)). }
  split; [now rewrite (default_bounds_at_position self k key m STATES Hu Hk) |].
  split; [now rewrite (default_bounds_at_position self k key m CONTROLS Hu Hk) |].
  split; [reflexivity |].
  split; [repeat constructor; discriminate |].
  split; [repeat constructor; discriminate |].
  repeat split.
Qed.


Lemma initial_guess_and_bounds_shapes_witness :
  exists (guess lower upper cl cu : list Q) (labels : list string),
    XiaTauFatigue.default_initial_guess tau_model 1 CONTROLS = Ok guess
    /\ XiaTauFatigue.default_bounds tau_model 1 STATES = Ok (lower, upper)
    /\ XiaTauFatigue.default_bounds tau_model 1 CONTROLS = Ok (cl, cu)
    /\ XiaFatigue.suffix (Some STATES) = Ok labels
    /\ Forall2 Qle lower guess /\ Forall2 Qle guess upper
    /\ length guess = length labels
    /\ length cl = 1%nat /\ length cu = 1%nat.
Proof.
  apply (initial_guess_and_bounds_shapes tau_model 1 "plus" plus_model CONTROLS).
  - vm_compute. reflexivity.
  - reflexivity.
Defined.
